(** * trod.model_.core: schema registration, records and the result codec

    A shallow embedding of [src/trod/model_/core.py]: the metaclass
    [_ModelMeta] (schema registration, class attribute access), the base
    class [_Model] (records, save and remove), [Rows], and the result codec
    ([load], [_empty], [_load_to_model]).

    Python objects are values of the type [value]; exceptions are the
    constructors of [exn]; a function that can raise returns a [result];
    [warnings.warn] appends to a log that is threaded next to the result
    (a warning is not an error).  A dictionary in insertion order is the
    list of its items; the [__dict__] of a record, where order plays no
    part, is a [gmap].  A function is the function of its body on the
    parameters as it names them, and a call made inside the module binds
    its arguments as the interpreter does; a coroutine is the function of
    its body, and the statement it awaits is a parameter.  What the module
    imports from the rest of the package ([types], [errors], [utils],
    [tables]) is either a parameter of a Section or a definition whose
    comment says that it is modelled from the specification. *)

From Stdlib Require Import ZArith String Ascii List Lia.
From stdpp Require Import base option list strings pretty gmap.

Local Open Scope string_scope.
Local Open Scope list_scope.

(** ** Exceptions and results *)

(** The exception classes the module raises, with the message where the
    source builds one.  [RecursionError] is what the interpreter raises
    when the call stack exceeds its limit. *)
Inductive exn : Type :=
| DuplicateFieldNameError (msg : string)
| DuplicatePKError (msg : string)
| InvalidFieldType (msg : string)
| NoPKError (msg : string)
| ModelSetAttrError (msg : string)
| ModifyAutoPkError (msg : string)
| AttributeError
| KeyError
| TypeError (msg : string)
| ValueError
| RuntimeError
| RecursionError.

Inductive result (A : Type) : Type :=
| Ok (a : A)
| Raise (e : exn).
Arguments Ok {A} a.
Arguments Raise {A} e.

#[global] Instance result_ret : MRet result := fun _ a => Ok a.
#[global] Instance result_bind : MBind result := fun _ _ f m =>
  match m with
  | Ok a => f a
  | Raise e => Raise e
  end.

#[global] Instance result_fmap : FMap result := fun _ _ f m =>
  match m with
  | Ok a => Ok (f a)
  | Raise e => Raise e
  end.

(** [[f(x) for x in l]]: the first exception ends the comprehension. *)
Fixpoint traverse {A B} (f : A -> result B) (l : list A) : result (list B) :=
  match l with
  | [] => Ok []
  | x :: l' => y ← f x; ys ← traverse f l'; Ok (y :: ys)
  end.

(** A warning category and its message ([warnings.warn(msg, category)]). *)
Inductive warning : Type :=
| ProgrammingWarning (msg : string).

(** Code that warns: the warnings emitted so far, and the outcome. *)
Definition W (A : Type) : Type := (list warning * result A)%type.

#[global] Instance W_ret : MRet W := fun _ a => ([], Ok a).
#[global] Instance W_bind : MBind W := fun _ _ f m =>
  match m with
  | (w, Ok a) => let '(w', r) := f a in (w ++ w', r)
  | (w, Raise e) => (w, Raise e)
  end.

Definition warn (msg : string) : W unit := ([ProgrammingWarning msg], Ok tt).
Definition raise {A} (e : exn) : W A := ([], Raise e).
Definition lift {A} (r : result A) : W A := ([], r).

(** ** Python values *)

(** The classes that [isinstance] is asked about in this module. *)
Inductive pyclass : Type :=
| FieldBase | IndexBase | dict | list_ | tuple.

(** [types.__real__.IndexBase] instances; only their identity matters here. *)
Record Index : Type := mkIndex { index_name : string; index_fields : list string }.

(** Modelled from the spec: [types.__real__.FieldBase] is not part of this
    file.  A field descriptor has a name (empty while unnamed: [None] and the
    empty string are both false for [field.name or attr]), the primary-key
    flag [pk], the AUTO_INCREMENT setting [ai] (a Python int or bool, false
    when zero) and an optional default-value producer: [call] is [Some v]
    when the descriptor is callable and calling it gives [v]. *)
Record Field_ (V : Type) : Type := mkField {
  name : string;
  pk : bool;
  ai : Z;
  call : option V;
}.
Arguments mkField {V}.
Arguments name {V}.
Arguments pk {V}.
Arguments ai {V}.
Arguments call {V}.

(** [utils.Tdict(auto=False, field=None, ai=None)]: the primary-key
    descriptor that registration fills in. *)
Record PK_ (V : Type) : Type := mkPK {
  pk_auto : bool;
  pk_field : option (Field_ V);
  pk_ai : option Z;
}.
Arguments mkPK {V}.
Arguments pk_auto {V}.
Arguments pk_field {V}.
Arguments pk_ai {V}.

(** Modelled from the spec: [tables.Table] is not part of this file.  It
    keeps what its constructor is given at lines 68-73: the bound database,
    the name, the ordered mapping from attribute key to field descriptor,
    the primary-key descriptor, the indexes, charset and comment. *)
Record Table_ (V : Type) : Type := mkTable {
  table_database : V;
  table_name : string;
  table_fields : list (string * Field_ V);
  table_pk : PK_ V;
  table_indexes : list V;
  table_charset : V;
  table_comment : V;
}.
Arguments mkTable {V}.
Arguments table_database {V}.
Arguments table_name {V}.
Arguments table_fields {V}.
Arguments table_pk {V}.
Arguments table_indexes {V}.
Arguments table_charset {V}.
Arguments table_comment {V}.

#[warnings="-register-all"]
Inductive value : Type :=
| VNone
| VBool (b : bool)
| VInt (z : Z)
| VStr (s : string)
| VTuple (l : list value)
| VList (l : list value)
| VDict (d : list (string * value))
| VTdict (d : list (string * value))   (* utils.Tdict, a dict subclass *)
| VClass (c : pyclass)
| VField (f : Field_ value)
| VIndex (i : Index)
| VTable (t : Table_ value)
| VObject (id : nat).                   (* any other object *)

Abbreviation Field := (Field_ value).
Abbreviation PK := (PK_ value).
Abbreviation Table := (Table_ value).

(** Python truth value testing, as [if x] and [not x] use it. *)
Definition truthy (v : value) : bool :=
  match v with
  | VNone => false
  | VBool b => b
  | VInt z => negb (z =? 0)%Z
  | VStr s => negb (String.eqb s "")
  | VTuple l | VList l => negb (Nat.eqb (length l) 0)
  | VDict d | VTdict d => negb (Nat.eqb (length d) 0)
  | _ => true
  end.

Definition instance_of (obj : value) (c : pyclass) : bool :=
  match c, obj with
  | FieldBase, VField _ => true
  | IndexBase, VIndex _ => true
  | dict, (VDict _ | VTdict _) => true
  | list_, VList _ => true
  | tuple, VTuple _ => true
  | _, _ => false
  end.

Definition class_of (v : value) : option pyclass :=
  match v with VClass c => Some c | _ => None end.

(** The builtin [isinstance], applied to its positional arguments: two are
    required, and the second is a class or a tuple of classes. *)
Definition isinstance (args : list value) : result bool :=
  match args with
  | [obj; VClass c] => Ok (instance_of obj c)
  | [obj; VTuple cs] =>
      match mapM class_of cs with
      | Some cs => Ok (existsb (instance_of obj) cs)
      | None => Raise (TypeError "isinstance() arg 2 must be a type, a tuple of types, or a union")
      end
  | [_; _] => Raise (TypeError "isinstance() arg 2 must be a type, a tuple of types, or a union")
  | _ => Raise (TypeError ("isinstance expected 2 arguments, got "
                           +:+ pretty (length args)))
  end.

(** ['a'], ['a' and 'b'], ['a', 'b', and 'c']: the parameter names as the
    interpreter lists them in a message. *)
Definition quoted (s : string) : string := "'" +:+ s +:+ "'".

Fixpoint quoted_tail (l : list string) : string :=
  match l with
  | [] => ""
  | [a] => ", and " +:+ quoted a
  | a :: l' => ", " +:+ quoted a +:+ quoted_tail l'
  end.

Definition quoted_names (l : list string) : string :=
  match l with
  | [] => ""
  | [a] => quoted a
  | [a; b] => quoted a +:+ " and " +:+ quoted b
  | a :: l' => quoted a +:+ quoted_tail l'
  end.

(** The call of a plain function [fname] that has the parameters [params],
    none with a default, with the positional arguments [args]: each
    parameter takes the argument at its position, and the call raises
    TypeError, before the body starts, when a parameter is left without
    argument or an argument without parameter. *)
Definition bind_positional (fname : string) (params : list string) (args : list value)
  : result unit :=
  let missing := drop (length args) params in
  if negb (Nat.eqb (length missing) 0) then
    Raise (TypeError (fname +:+ "() missing " +:+ pretty (length missing)
                      +:+ " required positional argument"
                      +:+ (if Nat.eqb (length missing) 1 then "" else "s")
                      +:+ ": " +:+ quoted_names missing))
  else if Nat.ltb (length params) (length args) then
    Raise (TypeError (fname +:+ "() takes " +:+ pretty (length params)
                      +:+ " positional arguments but " +:+ pretty (length args)
                      +:+ " were given"))
  else Ok tt.

(** ** Dictionaries in insertion order *)

(** A Python [dict] or [OrderedDict] with string keys, as its items in
    insertion order. *)
Abbreviation pydict := (list (string * value)).

Section dict_ops.
Context {V : Type}.

Fixpoint dict_get (k : string) (d : list (string * V)) : option V :=
  match d with
  | [] => None
  | (k', v) :: d' => if String.eqb k k' then Some v else dict_get k d'
  end.

(** [d.pop(k)]: the value and the dictionary without the key. *)
Fixpoint dict_pop (k : string) (d : list (string * V)) : option (V * list (string * V)) :=
  match d with
  | [] => None
  | (k', v) :: d' =>
      if String.eqb k k' then Some (v, d')
      else match dict_pop k d' with
           | Some (x, d'') => Some (x, (k', v) :: d'')
           | None => None
           end
  end.

(** [d.pop(k, default)]. *)
Definition dict_pop_default (k : string) (default : V) (d : list (string * V))
  : V * list (string * V) :=
  match dict_pop k d with
  | Some r => r
  | None => (default, d)
  end.

(** [d[k] = v]: a present key keeps its place, a new one goes last. *)
Fixpoint dict_set (k : string) (v : V) (d : list (string * V)) : list (string * V) :=
  match d with
  | [] => [(k, v)]
  | (k', v') :: d' =>
      if String.eqb k k' then (k, v) :: d' else (k', v') :: dict_set k v d'
  end.

Definition dict_in (k : string) (d : list (string * V)) : bool :=
  match dict_get k d with Some _ => true | None => false end.
End dict_ops.

(** ** Strings *)

(** [str.lower].  A string is the sequence of its bytes, and the letters
    lowered are those of ASCII; a class name with capital letters outside
    ASCII is not covered. *)
Definition lower_ascii (c : ascii) : ascii :=
  let n := nat_of_ascii c in
  if (Nat.leb 65 n && Nat.leb n 90)%bool then ascii_of_nat (n + 32) else c.

Fixpoint lower (s : string) : string :=
  match s with
  | EmptyString => EmptyString
  | String c s' => String (lower_ascii c) (lower s')
  end.

(** ** Classes and records *)

(** A class object: its name and the attributes that normal lookup finds
    on it (its own namespace first, then what it inherits). *)
Record ModelClass : Type := mkClass {
  cls_name : string;
  cls_attrs : pydict;
}.

(** [type.__new__(cls, name, bases, attrs)]. *)
Definition type_new (name : string) (bases : list ModelClass) (attrs : pydict) : ModelClass :=
  {| cls_name := name; cls_attrs := attrs ++ concat (cls_attrs <$> bases) |}.

(** An instance of a model class: its class and its [__dict__]. *)
Record Model : Type := mkModel {
  model_class : ModelClass;
  __dict__ : gmap string value;
}.

(** [for x in v]: the elements a value yields when iterated. *)
Definition iter_value (v : value) : result (list value) :=
  match v with
  | VTuple l | VList l => Ok l
  | VDict d | VTdict d => Ok (VStr <$> d.*1)
  | VStr s => Ok ((fun c => VStr (String c EmptyString)) <$> list_ascii_of_string s)
  | _ => Raise (TypeError "object is not iterable")
  end.

(** ** The metaclass [_ModelMeta] *)

Module _ModelMeta.

(** The local state of the field scan of [__prepare__]: what is left of
    [attrs], the ordered [fields], and the primary-key descriptor [pk]. *)
Record scan_state : Type := mkScan {
  st_attrs : pydict;
  st_fields : list (string * Field);
  st_pk : PK;
}.

(** What lines 18-59 of [__prepare__] leave behind when they raise nothing. *)
Record front_state : Type := mkFront {
  fr_bound : value;
  fr_table_name : string;
  fr_scan : scan_state;
}.

Section registration.
(** [tables.Table.DEFAULT] (the reserved names), [tables.Table.AIPK] and
    [types.SEQUENCE] are constants of modules that are not in this file. *)
Variable DEFAULT : list string.
Variable AIPK : string.
Variable SEQUENCE : value.

(** Lines 36-50: the field declares itself a primary key. *)
Definition register_pk (field : Field) (pk : PK) : W PK :=
  match pk_field pk with
  | Some _ =>
      raise (DuplicatePKError ("Duplicate primary key found for field " +:+ name field))
  | None =>
      let pk := {| pk_auto := pk_auto pk; pk_field := Some field; pk_ai := pk_ai pk |} in
      if negb (ai field =? 0)%Z then
        let pk := {| pk_auto := true; pk_field := pk_field pk; pk_ai := Some (ai field) |} in
        if negb (String.eqb (name field) AIPK) then
          _ ← warn ("The field name of AUTO_INCREMENT primary key is suggested "
                    +:+ "                                "
                    +:+ "to use `id` instead of {field.name}");
          mret pk
        else mret pk
      else mret pk
  end.

(** Lines 31-54: the body of the loop, for the attribute key [attr].
    Line 35 names the field object in place.  A class body is given by the
    value of each attribute, so a field object is taken to be bound to one
    attribute: one unnamed object bound to two attributes is named once, by
    the first of them, where this loop names each by its own key.  The
    names of unnamed fields, and the messages built from them, are the only
    place where the two differ. *)
Definition scan_attr (attr : string) (st : scan_state) : W scan_state :=
  let dup :=
    match pk_field (st_pk st) with
    | Some f => String.eqb attr (name f)
    | None => false
    end in
  if dup then raise (DuplicateFieldNameError ("Duplicate field name `" +:+ attr +:+ "`"))
  else
    match dict_pop attr (st_attrs st) with
    | None => raise KeyError
    | Some (VField field, attrs) =>
        let field :=
          {| name := if negb (String.eqb (name field) "") then name field else attr;
             pk := pk field; ai := ai field; call := call field |} in
        pk' ← (if pk field then register_pk field (st_pk st) else mret (st_pk st));
        mret {| st_attrs := attrs;
                st_fields := dict_set attr field (st_fields st);
                st_pk := pk' |}
    | Some (_, attrs) =>
        if bool_decide (attr ∈ DEFAULT)
        then mret {| st_attrs := attrs; st_fields := st_fields st; st_pk := st_pk st |}
        else raise (InvalidFieldType ("Invalid model field " +:+ attr))
    end.

(** Line 30: [for attr in attrs.copy()], over the keys of the copy. *)
Fixpoint scan (keys : list string) (st : scan_state) : W scan_state :=
  match keys with
  | [] => mret st
  | attr :: keys' => st' ← scan_attr attr st; scan keys' st'
  end.

(** Lines 18-59: the table name, the field scan and the primary-key check. *)
Definition prepare_front (name : string) (attrs : pydict) : W front_state :=
  let '(bound, attrs) := dict_pop_default "__db__" VNone attrs in
  let '(table_name, attrs) := dict_pop_default "__table__" VNone attrs in
  _ ← (if negb (truthy table_name)
       then warn ("Did not give the table name, use the model name `" +:+ name +:+ "`")
       else mret tt);
  let table_name := lower name in
  let fields := [] in
  let pk := {| pk_auto := false; pk_field := None; pk_ai := None |} in
  st ← scan attrs.*1 {| st_attrs := attrs; st_fields := fields; st_pk := pk |};
  match pk_field (st_pk st) with
  | None => raise (NoPKError ("Primary key not found for table `" +:+ table_name +:+ "`"))
  | Some _ => mret {| fr_bound := bound; fr_table_name := table_name; fr_scan := st |}
  end.

(** Lines 64-66: every index is an [IndexBase]. *)
Fixpoint check_indexes (indexes : list value) : result unit :=
  match indexes with
  | [] => Ok tt
  | index :: rest =>
      b ← isinstance [index; VClass IndexBase];
      if negb b then Raise (InvalidFieldType "") else check_indexes rest
  end.

(** Lines 61-74: the index validation and the construction of the Table. *)
Definition prepare_back (fr : front_state) : result pydict :=
  let attrs := st_attrs (fr_scan fr) in
  let '(indexes, attrs) := dict_pop_default "__indexes__" (VTuple []) attrs in
  b ← isinstance [SEQUENCE];
  if negb b then Raise (TypeError "")
  else
    items ← iter_value indexes;
    _ ← check_indexes items;
    let '(charset, attrs) := dict_pop_default "__charset__" VNone attrs in
    let '(comment, attrs) := dict_pop_default "__comment__" VNone attrs in
    Ok (dict_set "__table__"
          (VTable {| table_database := fr_bound fr;
                     table_name := fr_table_name fr;
                     table_fields := st_fields (fr_scan fr);
                     table_pk := st_pk (fr_scan fr);
                     table_indexes := items;
                     table_charset := charset;
                     table_comment := comment |})
          attrs).

(** Lines 17-74. *)
Definition __prepare__ (name : string) (attrs : pydict) : W pydict :=
  fr ← prepare_front name attrs;
  lift (prepare_back fr).

(** Lines 10-15.  [cls] is the metaclass, and [__prepare__] (line 17) is a
    plain function of the parameters [cls], [name] and [attrs], no
    classmethod: [cls.__prepare__] is that function unbound, the two
    arguments of line 14 go to [cls] and [name], and the call raises
    TypeError for the missing [attrs] before the body of [__prepare__]
    starts.  The body, and line 15 after it, are written as the source has
    them; no call gets there. *)
Definition __new__ (name : string) (bases : list ModelClass) (attrs : pydict) : W ModelClass :=
  if bool_decide (name ∈ ["_Model"; "Model"]) then mret (type_new name bases attrs)
  else
    _ ← lift (bind_positional "_ModelMeta.__prepare__" ["cls"; "name"; "attrs"]
                [VStr name; VDict attrs]);
    attrs ← __prepare__ name attrs;
    mret (type_new name bases attrs).
End registration.

(** Normal attribute lookup on a class ([type.__getattribute__]): the
    class's name, or an attribute of its namespace. *)
Definition type_getattribute (cls : ModelClass) (key : string) : result value :=
  if String.eqb key "__name__" then Ok (VStr (cls_name cls))
  else match dict_get key (cls_attrs cls) with
       | Some v => Ok v
       | None => Raise AttributeError
       end.

(** The builtin [getattr(cls, key)] on a class whose metaclass defines
    [__getattr__]: normal lookup first, and when that raises
    AttributeError the metaclass's [__getattr__], here [hook]. *)
Definition getattr (hook : ModelClass -> string -> result value)
    (cls : ModelClass) (key : string) : result value :=
  match type_getattribute cls key with
  | Raise AttributeError => hook cls key
  | r => r
  end.

(** [x.fields_dict] for the value [x] that [cls.__table__] gave. *)
Definition fields_dict_of (x : value) : result (list (string * Field)) :=
  match x with
  | VTable t => Ok (table_fields t)
  | _ => Raise AttributeError
  end.

(** Lines 76-86.  [depth] is the number of calls the interpreter's stack
    still has room for: a call beyond it raises RecursionError.  The
    [getattr] of line 78 and the [cls.__table__] of line 80 are attribute
    lookups on [cls], so they come back here when normal lookup fails. *)
Fixpoint __getattr__ (depth : nat) (cls : ModelClass) (key : string) : result value :=
  match depth with
  | O => Raise RecursionError
  | S depth =>
      match getattr (__getattr__ depth) cls key with
      | Ok value => Ok value
      | Raise AttributeError =>
          table ← getattr (__getattr__ depth) cls "__table__";
          fields_dict ← fields_dict_of table;
          match dict_get key fields_dict with
          | Some field => Ok (VField field)
          | None => Raise AttributeError
          end
      | Raise e => Raise e
      end
  end.

(** [__setattr__(cls, _key, _value)]: the class after the assignment, when
    there is one. *)
Definition __setattr__ (cls : ModelClass) (_key : string) (_value : value) : result ModelClass :=
  Raise (ModelSetAttrError ("'" +:+ cls_name cls +:+ "' class not allow set attribute")).

End _ModelMeta.

(** ** Rows *)

Module Rows.
(** A [Rows] object: [__init__] stores nothing on it. *)
Inductive t : Type := mk.

(** Lines 284-285: [def __init__(self, rows, columns=None): pass]. *)
Definition __init__ (rows : value) (columns : value) : result t := Ok mk.

(** Lines 287-293: both properties end without a [return]. *)
Definition columns (self : t) : value := VNone.
Definition values (self : t) : value := VNone.
End Rows.

(** [ExecResults(affected, last_id)]. *)
Record ExecResults : Type := mkExecResults {
  affected : value;
  last_id : value;
}.

(** ** The base class [_Model] *)

Module _Model.

(** [self.__table__]: the instance's [__dict__] first, then the class; the
    lookup that finds neither ends in [__getattr__], whose own
    [self.__table__] starts it again until the stack is exhausted. *)
Definition lookup_table (self : Model) : result value :=
  match __dict__ self !! "__table__" with
  | Some v => Ok v
  | None =>
      match dict_get "__table__" (cls_attrs (model_class self)) with
      | Some v => Ok v
      | None => Raise RecursionError
      end
  end.

(** An attribute of the Table is read from what the lookup gave. *)
Definition table_of (self : Model) : result Table :=
  x ← lookup_table self;
  match x with
  | VTable t => Ok t
  | _ => Raise AttributeError
  end.

(** Modelled from the spec: [tables.Table] is not part of this file.  Its
    [fields_dict] is the ordered mapping it was built from, and [fields]
    are the descriptors of that mapping in declaration order. *)
Definition fields_dict (t : Table) : list (string * Field) := table_fields t.
Definition fields (t : Table) : list Field := (table_fields t).*2.

(** [table.pk.field.name]; the [field] of an unfilled descriptor is None. *)
Definition pk_field_of (t : Table) : result Field :=
  match pk_field (table_pk t) with
  | Some f => Ok f
  | None => Raise AttributeError
  end.

(** Lines 109-119. *)
Definition __getattr__ (self : Model) (key : string) : result value :=
  match __dict__ self !! key with
  | Some v => Ok v
  | None =>
      t ← table_of self;
      f ← pk_field_of t;
      if (String.eqb key (name f) || dict_in key (fields_dict t))%bool
      then Ok VNone
      else Raise AttributeError
  end.

(** Attribute lookup on a record, [self.key]: the instance's [__dict__],
    then the class, and [__getattr__] when neither has the key. *)
Definition getattribute (self : Model) (key : string) : result value :=
  match __dict__ self !! key with
  | Some v => Ok v
  | None =>
      match dict_get key (cls_attrs (model_class self)) with
      | Some v => Ok v
      | None => __getattr__ self key
      end
  end.

(** Lines 121-132.  The message of line 129 reads [self.__class], which
    is not an attribute of the instance: an AttributeError either way. *)
Definition __setattr__ (self : Model) (key : string) (value : value) (is_loader : bool)
  : result Model :=
  t ← table_of self;
  _ ← (if pk_auto (table_pk t) then
         f ← pk_field_of t;
         if String.eqb key (name f)
         then Raise (ModifyAutoPkError "AUTO_INCREMENT table not allowed modify primary key")
         else Ok tt
       else Ok tt);
  if (negb is_loader && negb (dict_in key (fields_dict t)))%bool
  then Raise AttributeError
  else Ok {| model_class := model_class self; __dict__ := <[key := value]> (__dict__ self) |}.

(** Lines 95-97: the constructor, called with the keyword arguments
    [kwargs]. *)
Fixpoint init_loop (kwargs : pydict) (self : Model) : result Model :=
  match kwargs with
  | [] => Ok self
  | (attr, v) :: kwargs' => self' ← __setattr__ self attr v false; init_loop kwargs' self'
  end.

Definition __init__ (cls : ModelClass) (kwargs : pydict) : result Model :=
  init_loop kwargs {| model_class := cls; __dict__ := ∅ |}.

(** [cls.__table__] in a classmethod: normal lookup on the class; when it
    fails, the metaclass's [__getattr__] (lines 76-86) is asked, and that
    ends in RecursionError. *)
Definition class_table (cls : ModelClass) : result Table :=
  match dict_get "__table__" (cls_attrs cls) with
  | Some (VTable t) => Ok t
  | Some _ => Raise AttributeError
  | None => Raise RecursionError
  end.

Section statements.
(** [utils.tdictformatter], and the statements of [trod.model_.tables]:
    the object that [Insert(name, rows)] builds, and what the driver does
    with [Replace(name, rows).do()] and
    [Delete(name).where(field == value).do()]. *)
Variable tdictformatter : value -> value.
Variable Insert : string -> Rows.t -> value.
Variable Replace_do : string -> Rows.t -> result ExecResults.
Variable Delete_where_do : string -> Field -> value -> result ExecResults.

(** Lines 223-244. *)
Definition _insert_many (cls : ModelClass) (rows columns : value) : result value :=
  rows ← Rows.__init__ rows columns;
  t ← class_table cls;
  Ok (Insert (table_name t) rows).

(** Lines 139-144: the loop of [__self__] over the fields. *)
Fixpoint self_loop (self : Model) (fs : list Field) (values : pydict) : result pydict :=
  match fs with
  | [] => Ok values
  | f :: fs' =>
      v ← __getattr__ self (name f);
      let v := match v, call f with
               | VNone, Some d => d
               | _, _ => v
               end in
      self_loop self fs'
        match v with
        | VNone => values
        | _ => dict_set (name f) v values
        end
  end.

(** Lines 134-145. *)
Definition __self__ (self : Model) : result value :=
  t ← table_of self;
  values ← self_loop self (fields t) [];
  Ok (tdictformatter (VDict values)).

(** Lines 262-268: the result and the record afterwards. *)
Definition _save (self : Model) : result (ExecResults * Model) :=
  snapshot ← __self__ self;
  rows ← Rows.__init__ (VList [snapshot]) VNone;
  t ← table_of self;
  result ← Replace_do (table_name t) rows;
  t ← table_of self;
  self' ← __setattr__ self (table_name t) (last_id result) false;
  Ok (result, self').

(** Lines 270-279. *)
Definition _remove (self : Model) : result ExecResults :=
  t ← table_of self;
  f ← pk_field_of t;
  pk ← __getattr__ self (name f);
  if negb (truthy pk) then Raise RuntimeError
  else
    t ← table_of self;
    f ← pk_field_of t;
    Delete_where_do (table_name t) f pk.
End statements.

End _Model.

(** ** The result codec *)

(** What [load] returns: a plain value (a Tdict, a list of them), a
    record, or a [FetchResult] of records. *)
Inductive loaded : Type :=
| LValue (v : value)
| LModel (m : Model)
| FetchResult (l : list Model).

Section codec.
(** [utils.formattdict] is not part of this file. *)
Variable formattdict : value -> value.

(** Line 329, [model.set_value(key, value, is_loader=True)].  No class of
    the module defines [set_value]: the name is looked up on the record
    like any attribute, which ends in [__getattr__] (lines 109-119) and its
    AttributeError.  Where the lookup does give something (a value stored
    under that name, or the None that [__getattr__] gives for a field
    called [set_value]) it is a value, no function, and calling it raises
    TypeError; a class that binds [set_value] to a function of its own is
    not covered. *)
Definition set_value (self : Model) (key : string) (v : value) (is_loader : bool)
  : result Model :=
  _ ← _Model.getattribute self "set_value";
  Raise (TypeError "object is not callable").

(** [results.items()]. *)
Definition items (results : value) : result pydict :=
  match results with
  | VDict d | VTdict d => Ok d
  | _ => Raise AttributeError
  end.

Fixpoint do_loop (kvs : pydict) (model : Model) : result Model :=
  match kvs with
  | [] => Ok model
  | (key, v) :: kvs' => model' ← set_value model key v true; do_loop kvs' model'
  end.

(** Lines 326-330: the inner [_do]. *)
Definition _do (results : value) (model : ModelClass) : result Model :=
  model ← _Model.__init__ model [];
  kvs ← items results;
  do_loop kvs model.

(** Lines 323-337. *)
Definition _load_to_model (results : value) (model : ModelClass) : result loaded :=
  b ← isinstance [results; VClass dict];
  if b : bool then LModel <$> _do results model
  else
    b ← isinstance [results; VTuple [VClass list_; VClass tuple]];
    if b : bool then
      rs ← iter_value results;
      FetchResult <$> traverse (fun r => _do r model) rs
    else Raise ValueError.

(** Lines 310-320. *)
Definition _empty (results : value) (model : ModelClass) (use_tdict : bool) : result loaded :=
  b ← isinstance [results; VClass dict];
  if b : bool then
    if use_tdict then Ok (LValue (VTdict []))
    else LModel <$> _Model.__init__ model []
  else
    b ← isinstance [results; VTuple [VClass list_; VClass tuple]];
    if b : bool then
      if use_tdict then Ok (LValue (VList [VTdict []]))
      else Ok (FetchResult [])
    else Raise ValueError.

(** Lines 300-307. *)
Definition load (results : value) (model : ModelClass) (use_tdict : bool) : result loaded :=
  if negb (truthy results) then _empty results model use_tdict
  else if use_tdict then Ok (LValue (formattdict results))
  else _load_to_model results model.
End codec.

(** ** Example classes *)

(** The reserved names used in the examples: the two entries every class
    body has, and the declaration keys of lines 61-72. *)
Definition reserved : list string :=
  ["__module__"; "__qualname__"; "__indexes__"; "__charset__"; "__comment__"].

Definition example_sequence : value := VTuple [VClass list_; VClass tuple].

Definition id_field : Field := {| name := "id"; pk := true; ai := 1; call := None |}.
Definition key_field : Field := {| name := "id"; pk := true; ai := 0; call := None |}.
Definition name_field : Field := {| name := "name"; pk := false; ai := 0; call := None |}.

(** [Person]: an AUTO_INCREMENT key [id] and a column [name]. *)
Definition person_table : Table :=
  {| table_database := VNone; table_name := "person";
     table_fields := [("id", id_field); ("name", name_field)];
     table_pk := {| pk_auto := true; pk_field := Some id_field; pk_ai := Some 1%Z |};
     table_indexes := []; table_charset := VNone; table_comment := VNone |}.

Definition Person : ModelClass :=
  {| cls_name := "Person"; cls_attrs := [("__table__", VTable person_table)] |}.

(** [Account]: a key [id] that is not AUTO_INCREMENT and a column [name]. *)
Definition account_table : Table :=
  {| table_database := VNone; table_name := "account";
     table_fields := [("id", key_field); ("name", name_field)];
     table_pk := {| pk_auto := false; pk_field := Some key_field; pk_ai := None |};
     table_indexes := []; table_charset := VNone; table_comment := VNone |}.

Definition Account : ModelClass :=
  {| cls_name := "Account"; cls_attrs := [("__table__", VTable account_table)] |}.

(** [name]: a table called like its second column. *)
Definition name_table : Table :=
  {| table_database := VNone; table_name := "name";
     table_fields := [("id", key_field); ("name", name_field)];
     table_pk := {| pk_auto := false; pk_field := Some key_field; pk_ai := None |};
     table_indexes := []; table_charset := VNone; table_comment := VNone |}.

Definition Name : ModelClass :=
  {| cls_name := "Name"; cls_attrs := [("__table__", VTable name_table)] |}.

(** A class body with two fields marked primary key ([uid], then [gid]),
    one without any, and one with exactly one. *)
Definition two_keys : pydict :=
  [("__module__", VStr "app"); ("__qualname__", VStr "Person");
   ("uid", VField {| name := ""; pk := true; ai := 0; call := None |});
   ("name", VField {| name := ""; pk := false; ai := 0; call := None |});
   ("gid", VField {| name := ""; pk := true; ai := 0; call := None |})].

Definition no_key : pydict :=
  [("__module__", VStr "app"); ("__qualname__", VStr "Person");
   ("name", VField {| name := ""; pk := false; ai := 0; call := None |})].

Definition one_key : pydict :=
  [("__module__", VStr "app"); ("__qualname__", VStr "Person");
   ("__table__", VStr "people");
   ("id", VField {| name := ""; pk := true; ai := 1; call := None |});
   ("name", VField {| name := ""; pk := false; ai := 0; call := None |})].

(** A driver whose statements affect one row; the replace generates key 7. *)
Definition replace_7 (_ : string) (_ : Rows.t) : result ExecResults :=
  Ok {| affected := VInt 1; last_id := VInt 7 |}.
Definition delete_1 (_ : string) (_ : Field) (_ : value) : result ExecResults :=
  Ok {| affected := VInt 1; last_id := VNone |}.

(** ** Properties of the class body that registration scans *)

(** The part of the class body that the loop of line 30 walks: what is
    left once [__db__] and [__table__] are popped. *)
Definition declared (attrs : pydict) : pydict :=
  (dict_pop_default "__table__" VNone (dict_pop_default "__db__" VNone attrs).2).2.

(** The attribute holds a field marked primary key. *)
Definition marks_pk (kv : string * value) : bool :=
  match kv.2 with
  | VField f => pk f
  | _ => false
  end.

(** The attribute is a field, or its key is a reserved name. *)
Definition admissible (DEFAULT : list string) (kv : string * value) : bool :=
  match kv.2 with
  | VField _ => true
  | _ => bool_decide (kv.1 ∈ DEFAULT)
  end.

(** The name a field has after line 35. *)
Definition field_name (attr : string) (f : Field) : string :=
  if negb (String.eqb (name f) "") then name f else attr.

(** The fields of the mapping that are marked primary key. *)
Definition pk_fields (fields : list (string * Field)) : list (string * Field) :=
  filter (fun kv => pk kv.2 = true) fields.

(** The class as it is after an assignment was attempted and its
    exception caught. *)
Definition attempt (cls : ModelClass) (kv : string * value) : ModelClass :=
  match _ModelMeta.__setattr__ cls kv.1 kv.2 with
  | Ok cls' => cls'
  | Raise _ => cls
  end.

(** The attribute raises nothing and registers nothing: a field that is not
    marked primary key, or another value under a reserved name. *)
Definition plain (DEFAULT : list string) (kv : string * value) : bool :=
  admissible DEFAULT kv && negb (marks_pk kv).

Import _ModelMeta.

(** Lines 56-59, after the loop. *)
Definition pk_check (bound : value) (table_name : string) (st : scan_state)
  : W front_state :=
  match pk_field (st_pk st) with
  | None => raise (NoPKError ("Primary key not found for table `" +:+ table_name +:+ "`"))
  | Some _ => mret {| fr_bound := bound; fr_table_name := table_name; fr_scan := st |}
  end.

(** What the loop keeps true of [fields] and [pk]: the fields marked
    primary key in the mapping are exactly the registered one. *)
Definition pk_registered (fs : list (string * Field)) (p : PK) : Prop :=
  match pk_field p with
  | None => pk_fields fs = []
  | Some f => exists k, pk_fields fs = [(k, f)]
  end.

(** ** Further properties of registration *)

(** The value that line 19 pops for [__table__]. *)
Definition explicit_table_name (attrs : pydict) : value :=
  (dict_pop_default "__table__" VNone (dict_pop_default "__db__" VNone attrs).2).1.

(** The warning of lines 21-24, when [__table__] is missing or false. *)
Definition table_name_warnings (name : string) (attrs : pydict) : list warning :=
  if truthy (explicit_table_name attrs) then []
  else [ProgrammingWarning
          ("Did not give the table name, use the model name `" +:+ name +:+ "`")].

(** The warning of lines 46-50. *)
Definition aipk_warning : warning :=
  ProgrammingWarning
    ("The field name of AUTO_INCREMENT primary key is suggested "
     +:+ "                                "
     +:+ "to use `id` instead of {field.name}").

(** The field as line 35 leaves it. *)
Definition named (attr : string) (f : Field) : Field :=
  {| name := field_name attr f; pk := pk f; ai := ai f; call := call f |}.

(** The attributes of a class body that hold fields, each named. *)
Definition fields_of (body : pydict) : list (string * Field) :=
  omap (fun kv => match kv.2 with
                  | VField f => Some (kv.1, named kv.1 f)
                  | _ => None
                  end) body.



(** The primary-key descriptor that registering the field [f] gives. *)
Definition pk_of (f : Field) : PK :=
  {| pk_auto := negb (ai f =? 0)%Z;
     pk_field := Some f;
     pk_ai := if (ai f =? 0)%Z then None else Some (ai f) |}.

Definition is_field (v : value) : bool :=
  match v with VField _ => true | _ => false end.

(** The warnings that registering the named field [f] as the primary key
    emits (lines 42-50). *)
Definition aipk_warnings (AIPK : string) (f : Field) : list warning :=
  if (negb (ai f =? 0)%Z && negb (String.eqb (name f) AIPK))%bool
  then [aipk_warning] else [].

(** The primary-key descriptor of line 28. *)
Definition no_pk : PK := {| pk_auto := false; pk_field := None; pk_ai := None |}.

(** ** Further properties of records *)

(** The value that [__self__] stores for the field [f]: the record's own
    value, or else what calling the field gives. *)
Definition effective (self : Model) (f : Field) : value :=
  match __dict__ self !! name f with
  | Some VNone | None => default VNone (call f)
  | Some v => v
  end.

(** The dictionary that the loop of [__self__] builds over fields with
    distinct names. *)
Definition snapshot_of (self : Model) (fs : list Field) : pydict :=
  omap (fun f => match effective self f with
                 | VNone => None
                 | v => Some (name f, v)
                 end) fs.

(** ** Further example class bodies *)

(** [one_key] with an index declared. *)
Definition indexed_key : pydict :=
  one_key ++ [("__indexes__", VTuple [VIndex {| index_name := "by_name";
                                                 index_fields := ["name"] |}])].

(** An AUTO_INCREMENT key that is not called [id], and no table name. *)
Definition auto_uid : pydict :=
  [("uid", VField {| name := ""; pk := true; ai := 1; call := None |})].

(** A field, then an attribute that is no field. *)
Definition stray_attr : pydict :=
  [("name", VField {| name := ""; pk := false; ai := 0; call := None |});
   ("limit", VInt 10)].

(** A primary key named [gid] under the key [uid], then the key [gid]. *)
Definition name_clash : pydict :=
  [("uid", VField {| name := "gid"; pk := true; ai := 0; call := None |});
   ("gid", VInt 0)].

(** * Proofs *)

(** ** The monads *)

Lemma result_bind_ok {A B} (a : A) (f : A -> result B) : Ok a ≫= f = f a.
Proof. reflexivity. Qed.

Lemma W_bind_ret {A B} (a : A) (f : A -> W B) : mret a ≫= f = f a.
Proof. unfold mret, mbind, W_ret, W_bind. by destruct (f a). Qed.

Lemma W_bind_raise {A B} (w : list warning) (e : exn) (f : A -> W B) :
  (w, Raise e) ≫= f = (w, Raise e).
Proof. reflexivity. Qed.

Lemma W_bind_ok {A B} (m : W A) (f : A -> W B) w b :
  m ≫= f = (w, Ok b) ->
  exists w1 a w2, m = (w1, Ok a) /\ f a = (w2, Ok b) /\ w = w1 ++ w2.
Proof.
  destruct m as [w1 [a|e]]; unfold mbind, W_bind; [|discriminate].
  destruct (f a) as [w2 r] eqn:Hf. intros [= <- ->]. by exists w1, a, w2.
Qed.

(** ** Dictionaries *)

Lemma dict_pop_head {V} k (v : V) d : dict_pop k ((k, v) :: d) = Some (v, d).
Proof. simpl. by rewrite String.eqb_refl. Qed.

Lemma dict_set_fresh {V} k (v : V) d : k ∉ d.*1 -> dict_set k v d = d ++ [(k, v)].
Proof.
  induction d as [|[k' v'] d IH]; simpl; [done|].
  intros Hk. apply not_elem_of_cons in Hk as [Hne Hk].
  destruct (String.eqb_spec k k'); [done|]. by rewrite IH.
Qed.

Lemma dict_pop_keys {V} k (x : V) d d' :
  dict_pop k d = Some (x, d') -> forall k', k' ∈ d'.*1 -> k' ∈ d.*1.
Proof.
  revert d'. induction d as [|[k0 v0] d IH]; simpl; [done|].
  intros d'. destruct (String.eqb k k0).
  - intros [= <- <-] k' Hk'. by right.
  - destruct (dict_pop k d) as [[y d'']|] eqn:Hp; [|done].
    intros [= <- <-] k'. simpl. rewrite !elem_of_cons.
    intros [->|Hin]; [by left|right; by eapply IH].
Qed.

Lemma dict_pop_NoDup {V} k (x : V) d d' :
  dict_pop k d = Some (x, d') -> NoDup d.*1 -> NoDup d'.*1.
Proof.
  revert d'. induction d as [|[k0 v0] d IH]; simpl; [done|].
  intros d'. rewrite NoDup_cons. destruct (String.eqb k k0).
  - by intros [= <- <-] [_ ?].
  - destruct (dict_pop k d) as [[y d'']|] eqn:Hp; [|done].
    intros [= <- <-] [Hk0 Hnd]. simpl. apply NoDup_cons. split; [|by eapply IH].
    intros Hin. apply Hk0. by eapply dict_pop_keys.
Qed.

Lemma dict_pop_default_NoDup k (dflt : value) (d : pydict) :
  NoDup d.*1 -> NoDup (dict_pop_default k dflt d).2.*1.
Proof.
  intros Hnd. unfold dict_pop_default.
  destruct (dict_pop k d) as [[x d']|] eqn:Hp; simpl; [by eapply dict_pop_NoDup|done].
Qed.

Lemma declared_NoDup attrs : NoDup attrs.*1 -> NoDup (declared attrs).*1.
Proof. intros. unfold declared. by do 2 apply dict_pop_default_NoDup. Qed.

Section scan_facts.
Variable DEFAULT : list string.
Variable AIPK : string.

Local Abbreviation scan := (scan DEFAULT AIPK).
Local Abbreviation scan_attr := (scan_attr DEFAULT AIPK).

(** The keys of the copy are walked while the same entries are popped:
    the loop meets each entry at the head of what is left. *)
Lemma scan_cons k v l fs p :
  scan ((k, v) :: l).*1 (mkScan ((k, v) :: l) fs p)
  = scan_attr k (mkScan ((k, v) :: l) fs p) ≫= scan l.*1.
Proof. reflexivity. Qed.

(** An attribute that is not a field and has a reserved key, or a field
    that is not marked primary key, raises nothing and warns of nothing,
    provided its key is not the name of the registered primary key. *)
Lemma scan_attr_plain k v l fs p :
  admissible DEFAULT (k, v) = true -> marks_pk (k, v) = false ->
  (forall f, pk_field p = Some f -> k <> name f) ->
  exists fs', scan_attr k (mkScan ((k, v) :: l) fs p) = mret (mkScan l fs' p).
Proof.
  intros Hadm Hpk Hname. unfold _ModelMeta.scan_attr. simpl st_pk. simpl st_attrs.
  rewrite dict_pop_head.
  assert (match pk_field p with Some f => String.eqb k (name f) | None => false end = false)
    as ->.
  { destruct (pk_field p) as [f|]; [|done]. apply String.eqb_neq. by apply Hname. }
  unfold admissible, marks_pk in *. simpl in *.
  destruct v; simpl in *; try (rewrite Hadm; by eexists).
  rewrite Hpk. rewrite W_bind_ret. by eexists.
Qed.

Lemma scan_plain A : forall R fs p,
  Forall (fun kv => admissible DEFAULT kv = true) A ->
  Forall (fun kv => marks_pk kv = false) A ->
  (forall f, pk_field p = Some f -> Forall (fun kv => kv.1 <> name f) A) ->
  exists fs', scan (A ++ R).*1 (mkScan (A ++ R) fs p) = scan R.*1 (mkScan R fs' p).
Proof.
  induction A as [|[k v] A IH]; intros R fs p Hadm Hpk Hname; [by eexists|].
  apply Forall_cons in Hadm as [Hadm1 Hadm]. apply Forall_cons in Hpk as [Hpk1 Hpk].
  destruct (scan_attr_plain k v (A ++ R) fs p Hadm1 Hpk1) as [fs1 Hstep].
  { intros f Hf. specialize (Hname f Hf). by apply Forall_cons in Hname as [? _]. }
  destruct (IH R fs1 p Hadm Hpk) as [fs' Hrest].
  { intros f Hf. specialize (Hname f Hf). by apply Forall_cons in Hname as [_ ?]. }
  exists fs'. simpl app. rewrite scan_cons, Hstep, W_bind_ret. exact Hrest.
Qed.

(** The first field marked primary key is registered under the name
    that line 35 gives it. *)
Lemma scan_attr_first_pk k f l fs :
  pk f = true ->
  exists w fs' p',
    scan_attr k (mkScan ((k, VField f) :: l) fs (mkPK false None None))
    = (w, Ok (mkScan l fs' p'))
    /\ exists f', pk_field p' = Some f' /\ name f' = field_name k f.
Proof.
  intros Hpk. unfold _ModelMeta.scan_attr. simpl st_pk. simpl st_attrs. simpl pk_field.
  rewrite dict_pop_head. cbv iota. rewrite Hpk.
  unfold register_pk. simpl pk_field. simpl ai. simpl name. simpl pk_auto. simpl pk_ai.
  fold (field_name k f).
  destruct (negb (ai f =? 0)%Z).
  - destruct (negb (String.eqb (field_name k f) AIPK)).
    + eexists _, _, _. split; [reflexivity|]. by eexists.
    + eexists _, _, _. split; [reflexivity|]. by eexists.
  - eexists _, _, _. split; [reflexivity|]. by eexists.
Qed.

(** A further field marked primary key raises DuplicatePKError, unless
    its key is the name of the registered one. *)
Lemma scan_attr_second_pk k f l fs p f1 :
  pk f = true -> pk_field p = Some f1 -> k <> name f1 ->
  scan_attr k (mkScan ((k, VField f) :: l) fs p)
  = ([], Raise (DuplicatePKError
                  ("Duplicate primary key found for field " +:+ field_name k f))).
Proof.
  intros Hpk Hp Hk. unfold _ModelMeta.scan_attr. simpl st_pk. simpl st_attrs.
  rewrite Hp, dict_pop_head. apply String.eqb_neq in Hk. rewrite Hk. cbv iota.
  rewrite Hpk. unfold register_pk. simpl. by rewrite Hp.
Qed.
End scan_facts.

Section prepare_facts.
Variable DEFAULT : list string.
Variable AIPK : string.

Local Abbreviation scan := (scan DEFAULT AIPK).
Local Abbreviation scan_attr := (scan_attr DEFAULT AIPK).
Local Abbreviation prepare_front := (prepare_front DEFAULT AIPK).

(** [prepare_front] is the warning of line 21, if any, then the loop over
    the declared attributes, then the check of line 56. *)
Lemma prepare_front_scan name attrs :
  exists w0 bound,
    prepare_front name attrs
    = (w0, Ok tt) ≫= fun _ =>
        scan (declared attrs).*1 (mkScan (declared attrs) [] (mkPK false None None))
        ≫= pk_check bound (lower name).
Proof.
  unfold _ModelMeta.prepare_front, declared.
  destruct (dict_pop_default "__db__" VNone attrs) as [bound attrs1]. simpl.
  destruct (dict_pop_default "__table__" VNone attrs1) as [tn attrs2]. simpl.
  destruct (negb (truthy tn)); by eexists _, _.
Qed.

Lemma pk_fields_snoc fs k f :
  pk_fields (fs ++ [(k, f)]) = pk_fields fs ++ (if pk f then [(k, f)] else []).
Proof.
  unfold pk_fields. rewrite filter_app. f_equal.
  destruct (pk f) eqn:Hpk.
  - by rewrite filter_cons_True.
  - rewrite filter_cons_False; [done|]. simpl. by rewrite Hpk.
Qed.

Lemma register_pk_ok f p w p' :
  register_pk AIPK f p = (w, Ok p') -> pk_field p = None /\ pk_field p' = Some f.
Proof.
  unfold register_pk. destruct (pk_field p); [discriminate|].
  destruct (negb (ai f =? 0)%Z); [destruct (negb (String.eqb (name f) AIPK))|];
    by intros [= <- <-].
Qed.

Lemma scan_attr_registered k v l fs p w st :
  k ∉ fs.*1 -> pk_registered fs p ->
  scan_attr k (mkScan ((k, v) :: l) fs p) = (w, Ok st) ->
  st_attrs st = l /\ pk_registered (st_fields st) (st_pk st)
  /\ forall k', k' ∈ (st_fields st).*1 -> k' ∈ fs.*1 \/ k' = k.
Proof.
  intros Hfresh Hinv. unfold _ModelMeta.scan_attr. simpl st_pk. simpl st_attrs. simpl st_fields.
  destruct (match pk_field p with Some f => String.eqb k (name f) | None => false end);
    [discriminate|].
  rewrite dict_pop_head.
  assert (forall st', (if bool_decide (k ∈ DEFAULT)
                  then mret (mkScan l fs p)
                  else raise (InvalidFieldType ("Invalid model field " +:+ k)))
                 = (w, Ok st') ->
           st_attrs st' = l /\ pk_registered (st_fields st') (st_pk st')
           /\ forall k', k' ∈ (st_fields st').*1 -> k' ∈ fs.*1 \/ k' = k) as Hother.
  { intros st'. destruct (bool_decide (k ∈ DEFAULT)); [|discriminate].
    intros [= <- <-]. simpl. auto. }
  destruct v; try (by apply Hother).
  set (f' := {| name := _ |}).
  intros Hb. apply W_bind_ok in Hb as (w1 & p' & w2 & Hreg & [= <- <-] & _). simpl.
  rewrite (dict_set_fresh _ _ _ Hfresh). split; [done|]. split.
  - unfold pk_registered. rewrite pk_fields_snoc. subst f'. simpl pk.
    destruct (pk f) eqn:Hpk.
    + apply register_pk_ok in Hreg as [Hnone ->].
      unfold pk_registered in Hinv. rewrite Hnone in Hinv. rewrite Hinv. by exists k.
    + injection Hreg as <- <-. rewrite app_nil_r. exact Hinv.
  - intros k'. rewrite fmap_app, elem_of_app. simpl. rewrite list_elem_of_singleton. auto.
Qed.

Lemma scan_registered l : forall fs p w st,
  NoDup l.*1 -> (forall k, k ∈ l.*1 -> k ∉ fs.*1) -> pk_registered fs p ->
  scan l.*1 (mkScan l fs p) = (w, Ok st) ->
  pk_registered (st_fields st) (st_pk st).
Proof.
  induction l as [|[k v] l IH]; intros fs p w st Hnd Hfresh Hinv.
  - by intros [= <- <-].
  - rewrite scan_cons. intros Hb.
    apply W_bind_ok in Hb as (w1 & [l1 fs1 p1] & w2 & Hstep & Hrest & _).
    simpl in Hnd. apply NoDup_cons in Hnd as [Hk Hnd].
    apply scan_attr_registered in Hstep as (Hl & Hinv1 & Hkeys);
      [|apply Hfresh; by left|done].
    simpl in Hl, Hinv1, Hkeys. subst l1.
    apply (IH fs1 p1 w2 st Hnd); [|done|done].
    intros k' Hk' Hin. apply Hkeys in Hin as [Hin| ->]; [|done].
    by apply (Hfresh k'); [right|].
Qed.
End prepare_facts.

Lemma forallb_Forall {A} (f : A -> bool) l :
  forallb f l = true -> Forall (fun x => f x = true) l.
Proof.
  induction l as [|x l IH]; simpl; [constructor|].
  intros [? ?]%andb_true_iff. constructor; auto.
Qed.

Lemma W_bind_ok_raise {A B} w1 (a : A) (f : A -> W B) w2 e :
  f a = (w2, Raise e) -> (w1, Ok a) ≫= f = (w1 ++ w2, Raise e).
Proof. unfold mbind, W_bind. by intros ->. Qed.

Lemma scan_plain_b DEFAULT AIPK A R fs p :
  forallb (plain DEFAULT) A = true ->
  (forall f, pk_field p = Some f ->
        forallb (fun kv => negb (String.eqb kv.1 (name f))) A = true) ->
  exists fs', scan DEFAULT AIPK (A ++ R).*1 (mkScan (A ++ R) fs p)
         = scan DEFAULT AIPK R.*1 (mkScan R fs' p).
Proof.
  intros Hplain Hname. apply forallb_Forall in Hplain. apply scan_plain.
  - eapply Forall_impl; [exact Hplain|]. intros kv [? _]%andb_true_iff. done.
  - eapply Forall_impl; [exact Hplain|]. intros kv [_ ?]%andb_true_iff.
    by apply negb_true_iff.
  - intros f Hf. specialize (Hname f Hf). apply forallb_Forall in Hname.
    eapply Forall_impl; [exact Hname|]. intros kv Hkv.
    by apply negb_true_iff, String.eqb_neq in Hkv.
Qed.

Section C1.
Variable DEFAULT : list string.
Variable AIPK : string.
Variable SEQUENCE : value.

Lemma prepare_raise_front name attrs w e :
  prepare_front DEFAULT AIPK name attrs = (w, Raise e) ->
  __prepare__ DEFAULT AIPK SEQUENCE name attrs = (w, Raise e).
Proof. unfold __prepare__. by intros ->. Qed.

Lemma front_duplicate_pk name attrs A k1 f1 B k2 f2 C :
  declared attrs = A ++ (k1, VField f1) :: B ++ (k2, VField f2) :: C ->
  forallb (plain DEFAULT) A = true ->
  pk f1 = true ->
  forallb (fun kv => plain DEFAULT kv && negb (String.eqb kv.1 (field_name k1 f1))) B = true ->
  pk f2 = true ->
  k2 <> field_name k1 f1 ->
  exists w, prepare_front DEFAULT AIPK name attrs
       = (w, Raise (DuplicatePKError
                      ("Duplicate primary key found for field " +:+ field_name k2 f2))).
Proof.
  intros Hdecl HA Hpk1 HB Hpk2 Hk2.
  destruct (prepare_front_scan DEFAULT AIPK name attrs) as (w0 & bound & ->).
  rewrite Hdecl.
  destruct (scan_plain_b DEFAULT AIPK A ((k1, VField f1) :: B ++ (k2, VField f2) :: C)
              [] (mkPK false None None) HA) as [fs1 ->]; [done|].
  rewrite scan_cons.
  destruct (scan_attr_first_pk DEFAULT AIPK k1 f1 (B ++ (k2, VField f2) :: C) fs1 Hpk1)
    as (w1 & fs2 & p2 & -> & f1' & Hp2 & Hname).
  assert (forallb (plain DEFAULT) B = true /\
          forallb (fun kv => negb (String.eqb kv.1 (field_name k1 f1))) B = true) as [HB1 HB2].
  { clear -HB. induction B as [|kv B IH]; [done|]. simpl in *.
    apply andb_true_iff in HB as [[-> ->]%andb_true_iff HB]. by apply IH in HB as [-> ->]. }
  destruct (scan_plain_b DEFAULT AIPK B ((k2, VField f2) :: C) fs2 p2 HB1) as [fs3 Hskip].
  { intros f Hf. rewrite Hp2 in Hf. injection Hf as <-. by rewrite Hname. }
  rewrite scan_cons in Hskip.
  rewrite (scan_attr_second_pk DEFAULT AIPK k2 f2 C fs3 p2 f1' Hpk2 Hp2) in Hskip;
    [|by rewrite Hname].
  rewrite W_bind_raise in Hskip.
  rewrite (W_bind_ok_raise _ _ _ _ _ Hskip), W_bind_raise.
  rewrite (W_bind_ok_raise w0 tt _ (w1 ++ []) _ eq_refl).
  by eexists.
Qed.

Lemma front_no_pk name attrs :
  forallb (plain DEFAULT) (declared attrs) = true ->
  exists w, prepare_front DEFAULT AIPK name attrs
       = (w, Raise (NoPKError ("Primary key not found for table `" +:+ lower name +:+ "`"))).
Proof.
  intros Hplain.
  destruct (prepare_front_scan DEFAULT AIPK name attrs) as (w0 & bound & ->).
  destruct (scan_plain_b DEFAULT AIPK (declared attrs) [] [] (mkPK false None None) Hplain)
    as [fs1 Hskip]; [done|].
  rewrite app_nil_r in Hskip. rewrite Hskip. by eexists.
Qed.

Lemma front_one_pk name attrs w fr :
  NoDup attrs.*1 ->
  prepare_front DEFAULT AIPK name attrs = (w, Ok fr) ->
  exists k f, pk_fields (st_fields (fr_scan fr)) = [(k, f)]
         /\ pk_field (st_pk (fr_scan fr)) = Some f.
Proof.
  intros Hnd.
  destruct (prepare_front_scan DEFAULT AIPK name attrs) as (w0 & bound & ->).
  intros Hb. apply W_bind_ok in Hb as (_ & _ & w1 & _ & Hb & _).
  apply W_bind_ok in Hb as (w2 & st & w3 & Hscan & Hcheck & _).
  apply scan_registered in Hscan; [|by apply declared_NoDup|by intros ? _ ?%elem_of_nil|done].
  unfold pk_check in Hcheck. unfold pk_registered in Hscan.
  destruct (pk_field (st_pk st)) as [f|] eqn:Hf; [|discriminate].
  injection Hcheck as _ <-. simpl. destruct Hscan as [k Hk]. by exists k, f.
Qed.
End C1.

(** ** Registration: the primary key (lines 30-59) *)

(** C1, as the code has it.  For a class body [attrs] (a dictionary: its keys
    are distinct) and every setting of the reserved names:
    - when the declared attributes reach a second field marked primary key
      (under the key [k2]) with nothing but plain attributes before and
      between the two, and neither an attribute between them nor [k2]
      itself is the name of the first, registration raises DuplicatePKError
      at that second field;
    - when all declared attributes are plain (no field is marked primary
      key, and nothing raises InvalidFieldType), registration raises
      NoPKError;
    - when lines 18-59 raise nothing, the field mapping handed on to the
      Table holds exactly one field marked primary key, the registered one. *)
Theorem prepare_primary_key DEFAULT AIPK SEQUENCE (name : string) (attrs : pydict) :
  NoDup attrs.*1 ->
  (forall A k1 f1 B k2 f2 C,
      declared attrs = A ++ (k1, VField f1) :: B ++ (k2, VField f2) :: C ->
      forallb (plain DEFAULT) A = true ->
      pk f1 = true ->
      forallb (fun kv => plain DEFAULT kv && negb (String.eqb kv.1 (field_name k1 f1))) B = true ->
      pk f2 = true ->
      k2 <> field_name k1 f1 ->
      exists w msg, __prepare__ DEFAULT AIPK SEQUENCE name attrs
               = (w, Raise (DuplicatePKError msg)))
  /\ (forallb (plain DEFAULT) (declared attrs) = true ->
      exists w msg, __prepare__ DEFAULT AIPK SEQUENCE name attrs
               = (w, Raise (NoPKError msg)))
  /\ (forall w fr,
      prepare_front DEFAULT AIPK name attrs = (w, Ok fr) ->
      exists k f, pk_fields (st_fields (fr_scan fr)) = [(k, f)]
             /\ pk_field (st_pk (fr_scan fr)) = Some f).
Proof.
  intros Hnd. split; [|split].
  - intros A k1 f1 B k2 f2 C Hdecl HA Hpk1 HB Hpk2 Hk2.
    destruct (front_duplicate_pk DEFAULT AIPK name attrs A k1 f1 B k2 f2 C
                Hdecl HA Hpk1 HB Hpk2 Hk2) as [w Hw].
    exists w. eexists. by apply prepare_raise_front.
  - intros Hplain. destruct (front_no_pk DEFAULT AIPK name attrs Hplain) as [w Hw].
    exists w. eexists. by apply prepare_raise_front.
  - intros w fr. by apply front_one_pk.
Qed.

Lemma prepare_primary_key_witness :
  (exists w msg, __prepare__ reserved "id" example_sequence "Person" two_keys
        = (w, Raise (DuplicatePKError msg)))
  /\ (exists w msg, __prepare__ reserved "id" example_sequence "Person" no_key
        = (w, Raise (NoPKError msg)))
  /\ (exists fr, prepare_front reserved "id" "Person" one_key = ([], Ok fr)
        /\ exists k f, pk_fields (st_fields (fr_scan fr)) = [(k, f)]
                 /\ pk_field (st_pk (fr_scan fr)) = Some f).
Proof.
  split; [|split].
  - assert (NoDup two_keys.*1) as Hnd by compute_done.
    apply (proj1 (prepare_primary_key reserved "id" example_sequence "Person" two_keys Hnd)
             [("__module__", VStr "app"); ("__qualname__", VStr "Person")]
             "uid" {| name := ""; pk := true; ai := 0; call := None |}
             [("name", VField {| name := ""; pk := false; ai := 0; call := None |})]
             "gid" {| name := ""; pk := true; ai := 0; call := None |} []);
      [reflexivity|reflexivity|reflexivity|reflexivity|reflexivity|discriminate].
  - assert (NoDup no_key.*1) as Hnd by compute_done.
    apply (proj1 (proj2 (prepare_primary_key reserved "id" example_sequence "Person"
                           no_key Hnd))).
    reflexivity.
  - assert (NoDup one_key.*1) as Hnd by compute_done.
    eexists. split; [reflexivity|].
    apply (proj2 (proj2 (prepare_primary_key reserved "id" example_sequence "Person"
                           one_key Hnd)) []).
    reflexivity.
Defined.

(** The two class bodies of the witness, evaluated. *)
Example prepare_two_keys :
  __prepare__ reserved "id" example_sequence "Person" two_keys
  = ([ProgrammingWarning "Did not give the table name, use the model name `Person`"],
     Raise (DuplicatePKError "Duplicate primary key found for field gid")).
Proof. reflexivity. Qed.

Example prepare_no_key :
  __prepare__ reserved "id" example_sequence "Person" no_key
  = ([ProgrammingWarning "Did not give the table name, use the model name `Person`"],
     Raise (NoPKError "Primary key not found for table `person`")).
Proof. reflexivity. Qed.

(** C1 as stated fails: with two fields marked primary key, the second
    keyed like the name given to the first, registration raises
    DuplicateFieldNameError (line 32), not DuplicatePKError; with no field
    marked primary key and an attribute that is neither a field nor a
    reserved name, it raises InvalidFieldType (line 54), not NoPKError. *)
Lemma prepare_primary_key_counterexample :
  __prepare__ reserved "id" example_sequence "Person"
    [("uid", VField {| name := "gid"; pk := true; ai := 0; call := None |});
     ("gid", VField {| name := ""; pk := true; ai := 0; call := None |})]
  = ([ProgrammingWarning "Did not give the table name, use the model name `Person`"],
     Raise (DuplicateFieldNameError "Duplicate field name `gid`"))
  /\ __prepare__ reserved "id" example_sequence "Person"
       [("name", VField {| name := ""; pk := false; ai := 0; call := None |});
        ("limit", VInt 10)]
     = ([ProgrammingWarning "Did not give the table name, use the model name `Person`"],
        Raise (InvalidFieldType "Invalid model field limit")).
Proof. split; reflexivity. Qed.

(** ** Registration: the index validation (lines 61-74) *)

Lemma prepare_back_raises SEQUENCE fr :
  prepare_back SEQUENCE fr = Raise (TypeError "isinstance expected 2 arguments, got 1").
Proof.
  unfold prepare_back.
  by destruct (dict_pop_default "__indexes__" (VTuple []) (st_attrs (fr_scan fr))).
Qed.

(** [__prepare__] returns a namespace for no class body. *)
Lemma prepare_never_returns DEFAULT AIPK SEQUENCE name attrs w ns :
  __prepare__ DEFAULT AIPK SEQUENCE name attrs <> (w, Ok ns).
Proof.
  unfold __prepare__. intros Hb. apply W_bind_ok in Hb as (w1 & fr & w2 & _ & Hb & _).
  unfold lift in Hb. by rewrite prepare_back_raises in Hb.
Qed.

(** The call of line 14 leaves [attrs] without argument. *)
Lemma new_binding_fails DEFAULT AIPK SEQUENCE name bases attrs :
  name ∉ ["_Model"; "Model"] ->
  exists msg, __new__ DEFAULT AIPK SEQUENCE name bases attrs = ([], Raise (TypeError msg)).
Proof.
  intros Hname. unfold __new__. rewrite bool_decide_eq_false_2 by done.
  eexists. reflexivity.
Qed.

(** So [__new__] returns a class for no name but [_Model] and [Model]. *)
Lemma new_never_returns DEFAULT AIPK SEQUENCE name bases attrs w cls :
  name ∉ ["_Model"; "Model"] ->
  __new__ DEFAULT AIPK SEQUENCE name bases attrs <> (w, Ok cls).
Proof.
  intros Hname.
  destruct (new_binding_fails DEFAULT AIPK SEQUENCE name bases attrs Hname) as [msg ->].
  discriminate.
Qed.

(** C2.  Whenever the field scan and the primary-key check of a class body
    raise nothing, the index validation raises the TypeError of calling
    [isinstance] with one argument (line 62): that is the outcome of
    [__prepare__], with the warnings emitted so far, and [__prepare__]
    returns no namespace, so line 68 is not reached. *)
Theorem prepare_type_error DEFAULT AIPK SEQUENCE (name : string) (attrs : pydict) w fr :
  prepare_front DEFAULT AIPK name attrs = (w, Ok fr) ->
  prepare_back SEQUENCE fr = Raise (TypeError "isinstance expected 2 arguments, got 1")
  /\ __prepare__ DEFAULT AIPK SEQUENCE name attrs
     = (w, Raise (TypeError "isinstance expected 2 arguments, got 1"))
  /\ forall w' ns, __prepare__ DEFAULT AIPK SEQUENCE name attrs <> (w', Ok ns).
Proof.
  intros Hfront. split; [apply prepare_back_raises|]. split.
  - unfold __prepare__. rewrite Hfront. unfold lift, mbind, W_bind.
    by rewrite prepare_back_raises, app_nil_r.
  - intros w' ns. apply prepare_never_returns.
Qed.

(** The class body [one_key] passes lines 18-59 without a warning. *)
Lemma prepare_type_error_witness :
  exists fr, prepare_front reserved "id" "Person" one_key = ([], Ok fr)
        /\ prepare_back example_sequence fr
           = Raise (TypeError "isinstance expected 2 arguments, got 1")
        /\ __prepare__ reserved "id" example_sequence "Person" one_key
           = ([], Raise (TypeError "isinstance expected 2 arguments, got 1"))
        /\ forall w' ns,
             __prepare__ reserved "id" example_sequence "Person" one_key <> (w', Ok ns).
Proof.
  eexists. split; [reflexivity|].
  apply (prepare_type_error reserved "id" example_sequence "Person" one_key []).
  reflexivity.
Defined.

(** ** Registration: the table name (lines 18-25) *)

(** C3, at the code: whatever [__table__] the class body gives, the table
    name that lines 18-59 hand on (to the NoPKError message and to the
    Table of line 69) is the lower-cased class name. *)
Theorem prepare_table_name DEFAULT AIPK (name : string) (attrs : pydict) w fr :
  prepare_front DEFAULT AIPK name attrs = (w, Ok fr) ->
  fr_table_name fr = lower name.
Proof.
  destruct (prepare_front_scan DEFAULT AIPK name attrs) as (w0 & bound & ->).
  intros Hb. apply W_bind_ok in Hb as (_ & _ & w1 & _ & Hb & _).
  apply W_bind_ok in Hb as (w2 & st & w3 & _ & Hcheck & _).
  unfold pk_check in Hcheck. destruct (pk_field (st_pk st)); [|discriminate].
  by injection Hcheck as _ <-.
Qed.

(** The class [Person] with [__table__ = "people"]: no warning, and the
    table name is [person]. *)
Lemma prepare_table_name_witness :
  dict_get "__table__" one_key = Some (VStr "people")
  /\ exists fr, prepare_front reserved "id" "Person" one_key = ([], Ok fr)
          /\ fr_table_name fr = lower "Person"
          /\ lower "Person" = "person".
Proof.
  split; [reflexivity|]. eexists. split; [reflexivity|]. split; [|reflexivity].
  apply (prepare_table_name reserved "id" "Person" one_key []). reflexivity.
Defined.

(** The same class without a primary key: the error names [person]. *)
Example prepare_explicit_name_ignored :
  __prepare__ reserved "id" example_sequence "Person"
    [("__table__", VStr "people");
     ("name", VField {| name := ""; pk := false; ai := 0; call := None |})]
  = ([], Raise (NoPKError "Primary key not found for table `person`")).
Proof. reflexivity. Qed.

(** ** Records: writing the primary key (lines 121-132) *)

(** C4, at the code: on a record whose Table has an AUTO_INCREMENT primary
    key, a write to the primary-key field raises ModifyAutoPkError on the
    public path ([is_loader] false) and on the loader's path ([is_loader]
    true) alike: the check of line 122 does not read [is_loader]. *)
Theorem setattr_auto_pk (self : Model) (t : Table) (f : Field) (v : value) (is_loader : bool) :
  _Model.table_of self = Ok t ->
  pk_auto (table_pk t) = true ->
  pk_field (table_pk t) = Some f ->
  _Model.__setattr__ self (name f) v is_loader
  = Raise (ModifyAutoPkError "AUTO_INCREMENT table not allowed modify primary key").
Proof.
  intros Ht Hauto Hf. unfold _Model.__setattr__. rewrite Ht. simpl.
  rewrite Hauto. unfold _Model.pk_field_of. rewrite Hf. simpl.
  by rewrite String.eqb_refl.
Qed.

Lemma setattr_auto_pk_witness :
  _Model.__setattr__ {| model_class := Person; __dict__ := ∅ |} "id" (VInt 7) true
  = Raise (ModifyAutoPkError "AUTO_INCREMENT table not allowed modify primary key").
Proof.
  apply (setattr_auto_pk {| model_class := Person; __dict__ := ∅ |} person_table id_field
           (VInt 7) true); reflexivity.
Defined.

(** The loader of lines 323-337 does not get as far as [__setattr__]: it
    calls [set_value] (line 329), which no class defines. *)
Example load_person_row (formattdict : value -> value) :
  load formattdict (VDict [("id", VInt 7); ("name", VStr "Alice")]) Person false
  = Raise AttributeError.
Proof. reflexivity. Qed.

(** When the key is not AUTO_INCREMENT both paths write it. *)
Example setattr_plain_pk (is_loader : bool) :
  _Model.__setattr__ {| model_class := Account; __dict__ := ∅ |} "id" (VInt 7) is_loader
  = Ok {| model_class := Account; __dict__ := {["id" := VInt 7]} |}.
Proof. by destruct is_loader. Qed.

(** ** Classes: attribute assignment (lines 88-90) *)

(** C5.  Every attribute assignment on a class raises ModelSetAttrError,
    and a class is the same after any sequence of attempted assignments:
    its namespace, with the Table registered under [__table__], is not
    changed through this path. *)
Theorem class_setattr_frozen (cls : ModelClass) (key : string) (v : value) :
  _ModelMeta.__setattr__ cls key v
  = Raise (ModelSetAttrError ("'" +:+ cls_name cls +:+ "' class not allow set attribute"))
  /\ forall assignments : list (string * value), foldl attempt cls assignments = cls.
Proof.
  split; [reflexivity|].
  intros assignments. induction assignments as [|kv l IH]; [reflexivity|exact IH].
Qed.

(** ** The result codec: empty results (lines 300-320) *)

(** C6, as the code has it.  For an empty mapping [load] returns an empty
    Tdict when [use_tdict] is set and a new record with nothing set
    otherwise; for an empty list it returns a list of one empty Tdict
    when [use_tdict] is set and an empty FetchResult otherwise; for an
    absent result (None) it raises ValueError. *)
Theorem load_empty (formattdict : value -> value) (model : ModelClass) :
  load formattdict (VDict []) model true = Ok (LValue (VTdict []))
  /\ load formattdict (VDict []) model false
     = Ok (LModel {| model_class := model; __dict__ := ∅ |})
  /\ load formattdict (VList []) model true = Ok (LValue (VList [VTdict []]))
  /\ load formattdict (VList []) model false = Ok (FetchResult [])
  /\ forall use_tdict, load formattdict VNone model use_tdict = Raise ValueError.
Proof. repeat split. Qed.

(** An empty tuple is treated like an empty list, and a false value that
    is no container like None. *)
Lemma load_empty_other (formattdict : value -> value) (model : ModelClass) (use_tdict : bool) :
  load formattdict (VTuple []) model use_tdict = load formattdict (VList []) model use_tdict
  /\ load formattdict (VInt 0) model use_tdict = Raise ValueError
  /\ load formattdict (VStr "") model use_tdict = Raise ValueError
  /\ load formattdict (VBool false) model use_tdict = Raise ValueError.
Proof. repeat split. Qed.

(** C6 as stated fails for the absent result: None is false, so [load]
    passes it to [_empty], where it is neither a dict nor a list or tuple,
    and line 320 raises ValueError, whether or not a Tdict is asked for. *)
Lemma load_empty_counterexample :
  load (fun v => v) VNone Person true = Raise ValueError
  /\ load (fun v => v) VNone Person false = Raise ValueError.
Proof. split; reflexivity. Qed.

(** ** Rows (lines 282-293) *)

(** C7, at the code.  A [Rows] is built without a look at the tuples or
    the columns: for a class with a Table, whatever the tuples and their
    arities, the construction raises nothing, the [values] and [columns]
    of the result are None, and the Insert that [_insert_many] builds
    from it is the same for every batch: no value of a tuple reaches the
    statement, aligned or not, and no ValueError is raised. *)
Theorem rows_drop_tuples (Insert : string -> Rows.t -> value) (cls : ModelClass) (t : Table)
    (rows columns : value) :
  _Model.class_table cls = Ok t ->
  exists r, Rows.__init__ rows columns = Ok r
       /\ Rows.values r = VNone
       /\ Rows.columns r = VNone
       /\ _Model._insert_many Insert cls rows columns = Ok (Insert (table_name t) r)
       /\ forall rows' columns',
            _Model._insert_many Insert cls rows' columns'
            = _Model._insert_many Insert cls rows columns.
Proof.
  intros Ht. exists Rows.mk. unfold _Model._insert_many. simpl. rewrite Ht. done.
Qed.

(** The tuples [("Bob", "Foo")] and [("Herb",)] with the columns [first,
    last], the second tuple one value short: the Insert on [account] that
    comes out, here shown as the triple of its table name and the columns
    and values of its [Rows], holds None for both. *)
Lemma rows_drop_tuples_witness :
  exists r,
    Rows.__init__
      (VList [VTuple [VStr "Bob"; VStr "Foo"]; VTuple [VStr "Herb"]])
      (VList [VField {| name := "first"; pk := false; ai := 0; call := None |};
              VField {| name := "last"; pk := false; ai := 0; call := None |}])
    = Ok r
    /\ Rows.values r = VNone
    /\ Rows.columns r = VNone
    /\ _Model._insert_many
         (fun name rows => VTuple [VStr name; Rows.columns rows; Rows.values rows])
         Account
         (VList [VTuple [VStr "Bob"; VStr "Foo"]; VTuple [VStr "Herb"]])
         (VList [VField {| name := "first"; pk := false; ai := 0; call := None |};
                 VField {| name := "last"; pk := false; ai := 0; call := None |}])
       = Ok (VTuple [VStr (table_name account_table); Rows.columns r; Rows.values r])
    /\ forall rows' columns',
         _Model._insert_many
           (fun name rows => VTuple [VStr name; Rows.columns rows; Rows.values rows])
           Account rows' columns'
         = _Model._insert_many
             (fun name rows => VTuple [VStr name; Rows.columns rows; Rows.values rows])
             Account
             (VList [VTuple [VStr "Bob"; VStr "Foo"]; VTuple [VStr "Herb"]])
             (VList [VField {| name := "first"; pk := false; ai := 0; call := None |};
                     VField {| name := "last"; pk := false; ai := 0; call := None |}]).
Proof.
  exact (rows_drop_tuples
           (fun name rows => VTuple [VStr name; Rows.columns rows; Rows.values rows])
           Account account_table
           (VList [VTuple [VStr "Bob"; VStr "Foo"]; VTuple [VStr "Herb"]])
           (VList [VField {| name := "first"; pk := false; ai := 0; call := None |};
                   VField {| name := "last"; pk := false; ai := 0; call := None |}])
           eq_refl).
Defined.

(** The batch of the docstring of [_insert_many] (lines 236-240), whose
    tuples do match the columns, fares no better. *)
Example insert_many_docstring :
  _Model._insert_many
    (fun name rows => VTuple [VStr name; Rows.columns rows; Rows.values rows])
    Account
    (VList [VTuple [VStr "Bob"; VStr "Foo"]; VTuple [VStr "Herb"; VStr "Bar"];
            VTuple [VStr "Nuggie"; VStr "Bar"]])
    (VList [VField {| name := "first"; pk := false; ai := 0; call := None |};
            VField {| name := "last"; pk := false; ai := 0; call := None |}])
  = Ok (VTuple [VStr "account"; VNone; VNone]).
Proof. reflexivity. Qed.

(** ** Records: save (lines 262-268) *)

(** C8, at the code: when [_save] returns, the Replace it ran was built
    from the table's name and a [Rows] that keeps nothing of the record,
    and the generated key was written under the key that is the table's
    name (line 267), not under the primary-key field. *)
Theorem save_writes_table_name (tdictformatter : value -> value)
    (Replace_do : string -> Rows.t -> result ExecResults)
    (self : Model) (t : Table) (r : ExecResults) (self' : Model) :
  _Model.table_of self = Ok t ->
  _Model._save tdictformatter Replace_do self = Ok (r, self') ->
  Replace_do (table_name t) Rows.mk = Ok r
  /\ __dict__ self' = <[table_name t := last_id r]> (__dict__ self)
  /\ dict_in (table_name t) (_Model.fields_dict t) = true.
Proof.
  intros Ht. unfold _Model._save.
  destruct (_Model.__self__ tdictformatter self) as [snapshot|e]; [|discriminate].
  simpl. rewrite Ht. simpl.
  destruct (Replace_do (table_name t) Rows.mk) as [r0|e]; [|discriminate].
  simpl. unfold _Model.__setattr__. rewrite Ht. simpl.
  destruct (if pk_auto (table_pk t) then _ else _) as [[]|e]; [|discriminate].
  simpl. destruct (dict_in (table_name t) (_Model.fields_dict t)); [|discriminate].
  simpl. by intros [= <- <-].
Qed.

(** A record of [Name], whose table is called like its column [name]:
    the key 7 lands in [name], and [id] stays unset. *)
Lemma save_writes_table_name_witness :
  _Model._save (fun v => v) replace_7 {| model_class := Name; __dict__ := ∅ |}
  = Ok ({| affected := VInt 1; last_id := VInt 7 |},
        {| model_class := Name; __dict__ := {["name" := VInt 7]} |})
  /\ replace_7 "name" Rows.mk = Ok {| affected := VInt 1; last_id := VInt 7 |}
  /\ ({["name" := VInt 7]} : gmap string value) = <["name" := VInt 7]> ∅
  /\ dict_in "name" (_Model.fields_dict name_table) = true.
Proof.
  split; [reflexivity|].
  exact (save_writes_table_name (fun v => v) replace_7
           {| model_class := Name; __dict__ := ∅ |} name_table
           {| affected := VInt 1; last_id := VInt 7 |}
           {| model_class := Name; __dict__ := {["name" := VInt 7]} |}
           eq_refl eq_refl).
Defined.

(** When the table's name is no field of the table, [_save] raises
    AttributeError once the Replace has run. *)
Lemma save_raises (tdictformatter : value -> value)
    (Replace_do : string -> Rows.t -> result ExecResults)
    (self : Model) (t : Table) (r : ExecResults) (snapshot : value) :
  _Model.table_of self = Ok t ->
  _Model.__self__ tdictformatter self = Ok snapshot ->
  Replace_do (table_name t) Rows.mk = Ok r ->
  pk_auto (table_pk t) = false ->
  dict_in (table_name t) (_Model.fields_dict t) = false ->
  _Model._save tdictformatter Replace_do self = Raise AttributeError.
Proof.
  intros Ht Hsnap Hr Hauto Hin. unfold _Model._save. rewrite Hsnap. simpl.
  rewrite Ht. simpl. rewrite Hr. simpl. unfold _Model.__setattr__. rewrite Ht. simpl.
  by rewrite Hauto, Hin.
Qed.

(** A record of [Account] with its name set: the Replace runs, and the
    write-back raises; so it does for [Person]. *)
Example save_account :
  _Model._save (fun v => v) replace_7
    {| model_class := Account; __dict__ := {["name" := VStr "Alice"]} |}
  = Raise AttributeError.
Proof. reflexivity. Qed.

Example save_person :
  _Model._save (fun v => v) replace_7
    {| model_class := Person; __dict__ := {["name" := VStr "Alice"]} |}
  = Raise AttributeError.
Proof. reflexivity. Qed.

(** ** Classes: attribute lookup (lines 76-86) *)

(** An attribute that normal lookup finds is returned as it is. *)
Lemma class_getattr_normal depth cls key v :
  type_getattribute cls key = Ok v -> __getattr__ (S depth) cls key = Ok v.
Proof. intros Hv. simpl. unfold getattr. by rewrite Hv. Qed.

(** C9, at the code: for a name that normal lookup does not find on the
    class, declared field or not, [__getattr__] ends in RecursionError
    whatever room the stack has: the [getattr(cls, key)] of line 78 fails
    the same normal lookup and so calls [__getattr__] again. *)
Theorem class_getattr_recursion (depth : nat) (cls : ModelClass) (key : string) :
  type_getattribute cls key = Raise AttributeError ->
  __getattr__ depth cls key = Raise RecursionError.
Proof.
  intros Hkey. induction depth as [|depth IH]; [reflexivity|].
  simpl. unfold getattr at 1. by rewrite Hkey, IH.
Qed.

(** [Person.name], with room for a thousand calls. *)
Lemma class_getattr_recursion_witness :
  dict_get "name" (table_fields person_table) = Some name_field
  /\ __getattr__ 1000 Person "name" = Raise RecursionError.
Proof.
  split; [reflexivity|]. apply (class_getattr_recursion 1000 Person "name"). reflexivity.
Defined.

(** ** Records: remove (lines 270-279) *)

(** The record's primary-key value as [__getattr__] reads it. *)
Lemma getattr_pk (self : Model) (t : Table) (f : Field) :
  _Model.table_of self = Ok t ->
  pk_field (table_pk t) = Some f ->
  _Model.__getattr__ self (name f) = Ok (default VNone (__dict__ self !! name f)).
Proof.
  intros Ht Hf. unfold _Model.__getattr__.
  destruct (__dict__ self !! name f); [done|].
  rewrite Ht. simpl. unfold _Model.pk_field_of. rewrite Hf. simpl.
  by rewrite String.eqb_refl.
Qed.

(** C10, as the code has it.  On a record whose Table has a primary key,
    [_remove] raises RuntimeError when the primary-key value is unset or
    set to a false value (None, 0, an empty string, ...); otherwise it runs
    the Delete on the table's name filtered by the primary-key field being
    equal to that value. *)
Theorem remove_by_pk (Delete_where_do : string -> Field -> value -> result ExecResults)
    (self : Model) (t : Table) (f : Field) :
  _Model.table_of self = Ok t ->
  pk_field (table_pk t) = Some f ->
  _Model._remove Delete_where_do self
  = match __dict__ self !! name f with
    | Some v => if truthy v then Delete_where_do (table_name t) f v else Raise RuntimeError
    | None => Raise RuntimeError
    end.
Proof.
  intros Ht Hf. unfold _Model._remove. rewrite Ht, result_bind_ok.
  unfold _Model.pk_field_of. rewrite Hf, result_bind_ok.
  rewrite (getattr_pk self t f Ht Hf), result_bind_ok.
  destruct (__dict__ self !! name f) as [v|]; simpl; [|done].
  destruct (truthy v); simpl; [by rewrite Hf|done].
Qed.

(** An [Account] with [id = 3]: the Delete is filtered by [id == 3]; one
    with no [id]: RuntimeError. *)
Lemma remove_by_pk_witness :
  _Model._remove delete_1 {| model_class := Account; __dict__ := {["id" := VInt 3]} |}
  = delete_1 "account" key_field (VInt 3)
  /\ _Model._remove delete_1 {| model_class := Account; __dict__ := ∅ |}
     = Raise RuntimeError.
Proof.
  split.
  - exact (remove_by_pk delete_1
             {| model_class := Account; __dict__ := {["id" := VInt 3]} |}
             account_table key_field eq_refl eq_refl).
  - exact (remove_by_pk delete_1 {| model_class := Account; __dict__ := ∅ |}
             account_table key_field eq_refl eq_refl).
Defined.

(** C10 as stated fails: an [Account] whose [id] is set, to 0, has a
    primary-key value, and [_remove] raises RuntimeError instead of
    running the Delete. *)
Lemma remove_counterexample :
  _Model.__setattr__ {| model_class := Account; __dict__ := ∅ |} "id" (VInt 0) false
  = Ok {| model_class := Account; __dict__ := {["id" := VInt 0]} |}
  /\ __dict__ {| model_class := Account; __dict__ := {["id" := VInt 0]} |} !! "id"
     = Some (VInt 0)
  /\ _Model._remove delete_1 {| model_class := Account; __dict__ := {["id" := VInt 0]} |}
     = Raise RuntimeError.
Proof. repeat split. Qed.

(** ** Registration, attribute by attribute *)

Section scan_steps.
Variable DEFAULT : list string.
Variable AIPK : string.

Local Abbreviation scan := (scan DEFAULT AIPK).
Local Abbreviation scan_attr := (scan_attr DEFAULT AIPK).

(** What one round of the loop did when it raised nothing. *)
Lemma scan_attr_inv k v l fs p w st :
  scan_attr k (mkScan ((k, v) :: l) fs p) = (w, Ok st) ->
  st_attrs st = l
  /\ (forall f0, pk_field p = Some f0 -> k <> name f0)
  /\ match v with
     | VField f =>
         st_fields st = dict_set k (named k f) fs
         /\ if pk f
            then pk_field p = None
                 /\ st_pk st = (if (ai f =? 0)%Z
                                then mkPK (pk_auto p) (Some (named k f)) (pk_ai p)
                                else mkPK true (Some (named k f)) (Some (ai f)))
                 /\ w = (if (negb (ai f =? 0)%Z && negb (String.eqb (field_name k f) AIPK))%bool
                         then [aipk_warning] else [])
            else st_pk st = p /\ w = []
     | _ => k ∈ DEFAULT /\ st_fields st = fs /\ st_pk st = p /\ w = []
     end.
Proof.
  unfold _ModelMeta.scan_attr. simpl st_pk. simpl st_attrs. simpl st_fields.
  destruct (match pk_field p with Some f => String.eqb k (name f) | None => false end) eqn:Hdup;
    [discriminate|].
  rewrite dict_pop_head. intros Hstep.
  assert (forall f0, pk_field p = Some f0 -> k <> name f0) as Hname.
  { intros f0 Hf0. rewrite Hf0 in Hdup. by apply String.eqb_neq. }
  assert ((if bool_decide (k ∈ DEFAULT)
           then mret (mkScan l fs p)
           else raise (InvalidFieldType ("Invalid model field " +:+ k))) = (w, Ok st) ->
          st_attrs st = l /\ (forall f0, pk_field p = Some f0 -> k <> name f0)
          /\ k ∈ DEFAULT /\ st_fields st = fs /\ st_pk st = p /\ w = []) as Hother.
  { destruct (bool_decide (k ∈ DEFAULT)) eqn:Hd; [|discriminate].
    apply bool_decide_eq_true in Hd. by intros [= <- <-]. }
  destruct v; try (by apply Hother).
  fold (field_name k f) in Hstep. fold (named k f) in Hstep.
  clear Hother. apply W_bind_ok in Hstep as (w1 & p' & w2 & Hreg & Hret & Hw).
  injection Hret as <- <-. rewrite app_nil_r in Hw. subst w. simpl in *.
  split; [done|]. split; [done|]. split; [done|].
  destruct (pk f).
  - unfold register_pk in Hreg. destruct (pk_field p); [discriminate|].
    simpl in Hreg. split; [done|].
    destruct (ai f =? 0)%Z; simpl in Hreg.
    + injection Hreg as <- <-. done.
    + destruct (negb (String.eqb (field_name k f) AIPK)); simpl in Hreg;
        injection Hreg as <- <-; done.
  - injection Hreg as <- <-. done.
Qed.

(** A round that raises has warned of nothing. *)
Lemma scan_attr_raise k v l fs p w e :
  scan_attr k (mkScan ((k, v) :: l) fs p) = (w, Raise e) -> w = [].
Proof.
  unfold _ModelMeta.scan_attr. simpl st_pk. simpl st_attrs. simpl st_fields.
  destruct (match pk_field p with Some f => String.eqb k (name f) | None => false end);
    [by intros [= <- _]|].
  rewrite dict_pop_head.
  assert ((if bool_decide (k ∈ DEFAULT)
           then mret (mkScan l fs p)
           else raise (InvalidFieldType ("Invalid model field " +:+ k))) = (w, Raise e) ->
          w = []) as Hother.
  { destruct (bool_decide (k ∈ DEFAULT)); [discriminate|]. by intros [= <- _]. }
  destruct v; try (by apply Hother).
  destruct (pk f).
  - unfold register_pk. destruct (pk_field p); simpl; [by intros [= <- _]|].
    destruct (negb (ai f =? 0)%Z); simpl; [|discriminate].
    destruct (negb (String.eqb _ AIPK)); simpl; discriminate.
  - simpl. discriminate.
Qed.

Lemma fields_of_cons k v l :
  fields_of ((k, v) :: l)
  = match v with VField f => [(k, named k f)] | _ => [] end ++ fields_of l.
Proof. unfold fields_of. simpl. by destruct v. Qed.

Lemma fields_of_keys k l : k ∈ (fields_of l).*1 -> k ∈ l.*1.
Proof.
  induction l as [|[k' v] l IH]; [done|]. rewrite fields_of_cons. simpl.
  rewrite fmap_app, elem_of_app, elem_of_cons. intros [Hk|Hk]; [|right; by apply IH].
  destruct v; simpl in Hk; try by apply elem_of_nil in Hk.
  apply list_elem_of_singleton in Hk. by left.
Qed.

(** The loop pops every attribute. *)
Lemma scan_attrs_empty l : forall fs p w st,
  scan l.*1 (mkScan l fs p) = (w, Ok st) -> st_attrs st = [].
Proof.
  induction l as [|[k v] l IH]; intros fs p w st.
  - by intros [= _ <-].
  - rewrite scan_cons. intros Hb.
    apply W_bind_ok in Hb as (w1 & [l1 fs1 p1] & w2 & Hstep & Hrest & _).
    apply scan_attr_inv in Hstep as (Hl & _). simpl in Hl. subst l1.
    by apply IH in Hrest.
Qed.


(** The descriptor is the one of line 28 until a field marked primary key
    is met, and that field's own from then on; the only warning of the
    loop is the one of lines 46-50, emitted when that field is met. *)
Lemma scan_pk l : forall fs p w st,
  scan l.*1 (mkScan l fs p) = (w, Ok st) ->
  (p = no_pk ->
   (st_pk st = no_pk /\ w = [])
   \/ exists f, st_pk st = pk_of f /\ pk f = true /\ w = aipk_warnings AIPK f)
  /\ (forall f, p = pk_of f -> st_pk st = p /\ w = []).
Proof.
  induction l as [|[k v] l IH]; intros fs p w st.
  - intros [= <- <-]. simpl. auto.
  - rewrite scan_cons. intros Hb.
    apply W_bind_ok in Hb as (w1 & [l1 fs1 p1] & w2 & Hstep & Hrest & ->).
    apply scan_attr_inv in Hstep as (Hl & _ & Hv). simpl in Hl, Hv. subst l1.
    apply IH in Hrest as [Hnone Hsome].
    assert (p1 = p /\ w1 = [] \/
            exists f, v = VField f /\ pk f = true /\ pk_field p = None
                 /\ p1 = (if (ai f =? 0)%Z
                          then mkPK (pk_auto p) (Some (named k f)) (pk_ai p)
                          else mkPK true (Some (named k f)) (Some (ai f)))
                 /\ w1 = aipk_warnings AIPK (named k f)) as [[-> ->]|Hreg].
    { destruct v; try (left; by destruct Hv as (_ & _ & -> & ->)).
      destruct Hv as [_ Hv]. destruct (pk f) eqn:Hpk; [|by left].
      right. exists f. destruct Hv as (? & ? & ?). done. }
    + simpl. done.
    + destruct Hreg as (f & -> & Hpk & Hp & -> & ->). split.
      * intros ->. right. exists (named k f). simpl.
        destruct (Hsome (named k f)) as [-> ->];
          [unfold pk_of; simpl; by destruct (ai f =? 0)%Z|].
        rewrite app_nil_r. split; [|done].
        unfold pk_of; simpl; by destruct (ai f =? 0)%Z.
      * intros f' ->. discriminate.
Qed.

(** The warnings of the loop, whatever its outcome. *)
Lemma scan_warnings l : forall fs p w r,
  scan l.*1 (mkScan l fs p) = (w, r) ->
  w = [] \/ (pk_field p = None /\ w = [aipk_warning]).
Proof.
  induction l as [|[k v] l IH]; intros fs p w r.
  - intros Hnil. inversion Hnil. by left.
  - rewrite scan_cons.
    destruct (scan_attr k (mkScan ((k, v) :: l) fs p)) as [w1 [[l1 fs1 p1]|e]] eqn:Hstep.
    + apply scan_attr_inv in Hstep as (Hl & _ & Hv). simpl in Hl, Hv. subst l1.
      unfold mbind, W_bind.
      destruct (scan l.*1 (mkScan l fs1 p1)) as [w2 r2] eqn:Hrest.
      intros [= <- <-].
      apply IH in Hrest.
      destruct v; try (destruct Hv as (_ & _ & -> & ->); exact Hrest).
      destruct Hv as [_ Hv]. destruct (pk f).
      * destruct Hv as (Hp & -> & ->).
        assert (w2 = []) as ->.
        { destruct Hrest as [?|[Hnone _]]; [done|]. by destruct (ai f =? 0)%Z. }
        rewrite app_nil_r.
        destruct (negb (ai f =? 0)%Z && negb (String.eqb (field_name k f) AIPK))%bool;
          [by right|by left].
      * destruct Hv as [-> ->]. exact Hrest.
    + intros [= <- _]. apply scan_attr_raise in Hstep. by left.
Qed.
End scan_steps.

Section scan_append.
Variable DEFAULT : list string.
Variable AIPK : string.

Local Abbreviation scan := (scan DEFAULT AIPK).
Local Abbreviation scan_attr := (scan_attr DEFAULT AIPK).

(** A round does not look at the attributes that follow. *)
Lemma scan_attr_tail k v l l' fs p w st :
  scan_attr k (mkScan ((k, v) :: l) fs p) = (w, Ok st) ->
  scan_attr k (mkScan ((k, v) :: l') fs p)
  = (w, Ok (mkScan l' (st_fields st) (st_pk st))).
Proof.
  unfold _ModelMeta.scan_attr. simpl st_pk. simpl st_attrs. simpl st_fields.
  destruct (match pk_field p with Some f => String.eqb k (name f) | None => false end);
    [discriminate|].
  rewrite !dict_pop_head.
  assert ((if bool_decide (k ∈ DEFAULT)
           then mret (mkScan l fs p)
           else raise (InvalidFieldType ("Invalid model field " +:+ k))) = (w, Ok st) ->
          (if bool_decide (k ∈ DEFAULT)
           then mret (mkScan l' fs p)
           else raise (InvalidFieldType ("Invalid model field " +:+ k)))
          = (w, Ok (mkScan l' (st_fields st) (st_pk st)))) as Hother.
  { destruct (bool_decide (k ∈ DEFAULT)); [|discriminate]. by intros [= <- <-]. }
  destruct v; try (by apply Hother).
  intros Hb. apply W_bind_ok in Hb as (w1 & p' & w2 & -> & Hret & ->).
  injection Hret as <- <-. done.
Qed.

(** The loop is sequential: over a body [A ++ R] whose part [A] raises
    nothing, it goes on with [R] from the fields and the descriptor that
    [A] alone leaves. *)
Lemma scan_app A : forall R fs p w st w' r,
  scan A.*1 (mkScan A fs p) = (w, Ok st) ->
  scan R.*1 (mkScan R (st_fields st) (st_pk st)) = (w', r) ->
  scan (A ++ R).*1 (mkScan (A ++ R) fs p) = (w ++ w', r).
Proof.
  induction A as [|[k v] A IH]; intros R fs p w st w' r.
  - intros [= <- <-]. simpl. by intros ->.
  - rewrite scan_cons. intros Hb Hrest.
    apply W_bind_ok in Hb as (w1 & st1 & w2 & Hstep & HA & ->).
    pose proof (scan_attr_inv _ _ _ _ _ _ _ _ _ Hstep) as (Hl & _).
    destruct st1 as [l1 fs1 p1]. simpl in Hl. subst l1.
    simpl app. rewrite scan_cons.
    rewrite (scan_attr_tail _ _ _ (A ++ R) _ _ _ _ Hstep). simpl.
    unfold mbind, W_bind. rewrite (IH R fs1 p1 w2 st w' r HA Hrest).
    by rewrite app_assoc.
Qed.
End scan_append.

(** Lines 18-59 as the warning of line 21, the loop and the check. *)
Lemma prepare_front_eq DEFAULT AIPK name attrs :
  prepare_front DEFAULT AIPK name attrs
  = (table_name_warnings name attrs, Ok tt) ≫= fun _ =>
      scan DEFAULT AIPK (declared attrs).*1 (mkScan (declared attrs) [] no_pk)
      ≫= pk_check (dict_pop_default "__db__" VNone attrs).1 (lower name).
Proof.
  unfold _ModelMeta.prepare_front, declared, table_name_warnings, explicit_table_name.
  destruct (dict_pop_default "__db__" VNone attrs) as [bound attrs1]. simpl.
  destruct (dict_pop_default "__table__" VNone attrs1) as [tn attrs2]. simpl.
  by destruct (truthy tn).
Qed.

(** What [prepare_front] returns, read off the loop. *)
Lemma prepare_front_ok DEFAULT AIPK name attrs w fr :
  prepare_front DEFAULT AIPK name attrs = (w, Ok fr) ->
  exists w1 st,
    scan DEFAULT AIPK (declared attrs).*1 (mkScan (declared attrs) [] no_pk) = (w1, Ok st)
    /\ w = table_name_warnings name attrs ++ w1
    /\ fr = mkFront (dict_pop_default "__db__" VNone attrs).1 (lower name) st
    /\ is_Some (pk_field (st_pk st)).
Proof.
  rewrite prepare_front_eq. intros Hb.
  apply W_bind_ok in Hb as (w0 & [] & w' & [= <-] & Hb & ->).
  apply W_bind_ok in Hb as (w1 & st & w2 & Hscan & Hcheck & ->).
  unfold pk_check in Hcheck. destruct (pk_field (st_pk st)) eqn:Hpk; [|discriminate].
  injection Hcheck as <- <-. exists w1, st. rewrite app_nil_r. by rewrite Hpk.
Qed.

Lemma prepare_warnings_eq DEFAULT AIPK SEQUENCE name attrs :
  (__prepare__ DEFAULT AIPK SEQUENCE name attrs).1 = (prepare_front DEFAULT AIPK name attrs).1.
Proof.
  unfold __prepare__. destruct (prepare_front DEFAULT AIPK name attrs) as [w [fr|e]]; [|done].
  unfold mbind, W_bind, lift. simpl. apply app_nil_r.
Qed.

(** ** Registration: what the scan hands on *)

(** X1.  When lines 18-59 raise nothing, nothing is left of the class
    body: the loop has popped every attribute, so each later
    [attrs.pop(key, default)] (lines 61, 71 and 72) gives its default,
    whatever the class body declared under that key. *)
Theorem prepare_consumes_attrs DEFAULT AIPK (name : string) (attrs : pydict) w fr :
  prepare_front DEFAULT AIPK name attrs = (w, Ok fr) ->
  st_attrs (fr_scan fr) = []
  /\ forall (key : string) (default : value),
      dict_pop_default key default (st_attrs (fr_scan fr)) = (default, []).
Proof.
  intros Hfront.
  apply prepare_front_ok in Hfront as (w1 & st & Hscan & _ & -> & _). simpl.
  by apply scan_attrs_empty in Hscan as ->.
Qed.

Lemma prepare_consumes_attrs_witness :
  dict_in "__indexes__" indexed_key = true
  /\ exists fr, prepare_front reserved "id" "Person" indexed_key = ([], Ok fr)
          /\ st_attrs (fr_scan fr) = []
          /\ forall key default,
               dict_pop_default key default (st_attrs (fr_scan fr)) = (default, []).
Proof.
  split; [reflexivity|]. eexists. split; [reflexivity|].
  apply (prepare_consumes_attrs reserved "id" "Person" indexed_key []). reflexivity.
Defined.




(** X3.  When lines 18-59 raise nothing, the primary-key descriptor is that
    of one field marked primary key: [auto] is set exactly when the
    field's [ai] is true, [ai] holds it then and None otherwise; the
    warnings are the one for a missing table name, if any, then the one
    for an AUTO_INCREMENT key not named like [AIPK], if any. *)
Theorem prepare_pk_descriptor DEFAULT AIPK (name : string) (attrs : pydict) w fr :
  prepare_front DEFAULT AIPK name attrs = (w, Ok fr) ->
  exists f, st_pk (fr_scan fr) = pk_of f
       /\ pk f = true
       /\ w = table_name_warnings name attrs ++ aipk_warnings AIPK f.
Proof.
  intros Hfront.
  apply prepare_front_ok in Hfront as (w1 & st & Hscan & -> & -> & Hsome). simpl.
  apply scan_pk in Hscan as [Hnone _].
  destruct (Hnone eq_refl) as [[Hpk _]|(f & Hpk & Hf & ->)].
  - rewrite Hpk in Hsome. by destruct Hsome.
  - by exists f.
Qed.

Lemma prepare_pk_descriptor_witness :
  exists fr f,
    prepare_front reserved "id" "Person" auto_uid
    = ([ProgrammingWarning "Did not give the table name, use the model name `Person`";
        aipk_warning], Ok fr)
    /\ st_pk (fr_scan fr) = pk_of f
    /\ pk f = true
    /\ [ProgrammingWarning "Did not give the table name, use the model name `Person`";
        aipk_warning]
       = table_name_warnings "Person" auto_uid ++ aipk_warnings "id" f.
Proof.
  destruct (prepare_pk_descriptor reserved "id" "Person" auto_uid
              [ProgrammingWarning "Did not give the table name, use the model name `Person`";
               aipk_warning]
              {| fr_bound := VNone; fr_table_name := "person";
                 fr_scan := {| st_attrs := [];
                               st_fields := [("uid", named "uid" {| name := ""; pk := true;
                                                                    ai := 1; call := None |})];
                               st_pk := pk_of (named "uid" {| name := ""; pk := true;
                                                              ai := 1; call := None |}) |} |}
              eq_refl) as (f & H1 & H2 & H3).
  eexists _, f. split; [reflexivity|]. done.
Defined.

(** X4.  Whatever the outcome of [__prepare__], it has warned at most
    twice: of the missing table name exactly when [__table__] is missing
    or false, and then at most once of the AUTO_INCREMENT key's name. *)
Theorem prepare_warnings DEFAULT AIPK SEQUENCE (name : string) (attrs : pydict) :
  exists w',
    (__prepare__ DEFAULT AIPK SEQUENCE name attrs).1 = table_name_warnings name attrs ++ w'
    /\ (w' = [] \/ w' = [aipk_warning]).
Proof.
  rewrite prepare_warnings_eq, prepare_front_eq.
  destruct (scan DEFAULT AIPK (declared attrs).*1 (mkScan (declared attrs) [] no_pk))
    as [w1 r1] eqn:Hscan.
  pose proof (scan_warnings _ _ _ _ _ _ _ Hscan) as Hw1.
  exists w1. split; [|destruct Hw1 as [?|[_ ?]]; auto].
  destruct r1 as [st|e]; simpl; [|done].
  unfold pk_check. destruct (pk_field (st_pk st)); simpl; by rewrite app_nil_r.
Qed.

Lemma prepare_scan_raise DEFAULT AIPK SEQUENCE name attrs w e :
  scan DEFAULT AIPK (declared attrs).*1 (mkScan (declared attrs) [] no_pk) = (w, Raise e) ->
  __prepare__ DEFAULT AIPK SEQUENCE name attrs = (table_name_warnings name attrs ++ w, Raise e).
Proof.
  intros Hscan. unfold __prepare__. rewrite prepare_front_eq, Hscan. reflexivity.
Qed.

(** X5.  The first attribute that is neither a field nor keyed by a
    reserved name raises InvalidFieldType: when the attributes before it
    raise nothing and its key is not the registered primary key's name,
    [__prepare__] ends there, with the warnings emitted so far. *)
Theorem prepare_invalid_field DEFAULT AIPK SEQUENCE (class_name : string) (attrs : pydict)
    A k v C w st :
  declared attrs = A ++ (k, v) :: C ->
  scan DEFAULT AIPK A.*1 (mkScan A [] no_pk) = (w, Ok st) ->
  (forall f, pk_field (st_pk st) = Some f -> k <> name f) ->
  is_field v = false ->
  k ∉ DEFAULT ->
  __prepare__ DEFAULT AIPK SEQUENCE class_name attrs
  = (table_name_warnings class_name attrs ++ w,
     Raise (InvalidFieldType ("Invalid model field " +:+ k))).
Proof.
  intros Hdecl HA Hname Hv Hk.
  apply prepare_scan_raise. rewrite Hdecl.
  rewrite <- (app_nil_r w). eapply scan_app; [exact HA|].
  rewrite scan_cons.
  assert (scan_attr DEFAULT AIPK k (mkScan ((k, v) :: C) (st_fields st) (st_pk st))
          = ([], Raise (InvalidFieldType ("Invalid model field " +:+ k)))) as ->; [|done].
  unfold scan_attr. simpl st_pk. simpl st_attrs. simpl st_fields.
  assert (match pk_field (st_pk st) with
          | Some f => String.eqb k (name f) | None => false end = false) as ->.
  { destruct (pk_field (st_pk st)) as [f|] eqn:Hf; [|done]. by apply String.eqb_neq, Hname. }
  rewrite dict_pop_head, (bool_decide_eq_false_2 _ Hk). by destruct v.
Qed.

Lemma prepare_invalid_field_witness :
  __prepare__ reserved "id" example_sequence "Person" stray_attr
  = (table_name_warnings "Person" stray_attr ++ [],
     Raise (InvalidFieldType ("Invalid model field " +:+ "limit"))).
Proof.
  apply (prepare_invalid_field reserved "id" example_sequence "Person" stray_attr
           [("name", VField {| name := ""; pk := false; ai := 0; call := None |})]
           "limit" (VInt 10) [] []
           {| st_attrs := [];
              st_fields := [("name", name_field)];
              st_pk := no_pk |});
    [reflexivity|reflexivity|discriminate|reflexivity|compute_done].
Defined.

(** X6.  An attribute keyed like the name of the registered primary-key
    field raises DuplicateFieldNameError (line 32), whatever it holds:
    when the attributes before it raise nothing, [__prepare__] ends there. *)
Theorem prepare_duplicate_field_name DEFAULT AIPK SEQUENCE (class_name : string) (attrs : pydict)
    A k v C w st f :
  declared attrs = A ++ (k, v) :: C ->
  scan DEFAULT AIPK A.*1 (mkScan A [] no_pk) = (w, Ok st) ->
  pk_field (st_pk st) = Some f ->
  k = name f ->
  __prepare__ DEFAULT AIPK SEQUENCE class_name attrs
  = (table_name_warnings class_name attrs ++ w,
     Raise (DuplicateFieldNameError ("Duplicate field name `" +:+ k +:+ "`"))).
Proof.
  intros Hdecl HA Hf Hk.
  apply prepare_scan_raise. rewrite Hdecl.
  rewrite <- (app_nil_r w). eapply scan_app; [exact HA|].
  rewrite scan_cons. unfold scan_attr at 1. simpl st_pk.
  rewrite Hf. subst k. by rewrite String.eqb_refl.
Qed.

Lemma prepare_duplicate_field_name_witness :
  __prepare__ reserved "id" example_sequence "Person" name_clash
  = (table_name_warnings "Person" name_clash ++ [],
     Raise (DuplicateFieldNameError ("Duplicate field name `" +:+ "gid" +:+ "`"))).
Proof.
  apply (prepare_duplicate_field_name reserved "id" example_sequence "Person" name_clash
           [("uid", VField {| name := "gid"; pk := true; ai := 0; call := None |})]
           "gid" (VInt 0) [] []
           {| st_attrs := [];
              st_fields := [("uid", {| name := "gid"; pk := true; ai := 0; call := None |})];
              st_pk := pk_of {| name := "gid"; pk := true; ai := 0; call := None |} |}
           {| name := "gid"; pk := true; ai := 0; call := None |});
    reflexivity.
Defined.

(** X7.  For every class name but [_Model] and [Model], [__new__] raises
    TypeError at line 14, whatever the class body: the call of
    [__prepare__] leaves its parameter [attrs] without argument, so the
    body of [__prepare__] is not entered, no warning is emitted, and no
    class is built. *)
Theorem new_raises DEFAULT AIPK SEQUENCE (name : string) (bases : list ModelClass)
    (attrs : pydict) :
  name <> "_Model" -> name <> "Model" ->
  exists msg, __new__ DEFAULT AIPK SEQUENCE name bases attrs = ([], Raise (TypeError msg)).
Proof.
  intros H1 H2. apply new_binding_fails.
  rewrite !elem_of_cons. intros [?|[?|?%elem_of_nil]]; done.
Qed.

Lemma new_raises_witness :
  exists msg, __new__ reserved "id" example_sequence "Person" [] one_key
         = ([], Raise (TypeError msg)).
Proof.
  apply (new_raises reserved "id" example_sequence "Person" [] one_key); discriminate.
Defined.

(** The message of that TypeError, and the two names that are let through. *)
Example new_person :
  __new__ reserved "id" example_sequence "Person" [] one_key
  = ([], Raise (TypeError
                  "_ModelMeta.__prepare__() missing 1 required positional argument: 'attrs'")).
Proof. reflexivity. Qed.

Example new_model (attrs : pydict) :
  __new__ reserved "id" example_sequence "Model" [] attrs = ([], Ok (type_new "Model" [] attrs)).
Proof. reflexivity. Qed.

(** ** Classes: what attribute lookup returns *)

(** X8.  [__getattr__] on a class returns what normal lookup finds, when
    the stack has room for the call, and raises RecursionError in every
    other case: the fallback to the Table's fields (line 81) and the
    AttributeError of line 83 are never reached. *)
Theorem class_getattr_outcomes (depth : nat) (cls : ModelClass) (key : string) :
  __getattr__ depth cls key
  = match depth, type_getattribute cls key with
    | S _, Ok v => Ok v
    | _, _ => Raise RecursionError
    end.
Proof.
  destruct (type_getattribute cls key) as [v|e] eqn:Hkey.
  - destruct depth as [|depth]; [done|]. simpl. unfold getattr. by rewrite Hkey.
  - assert (e = AttributeError) as ->.
    { unfold type_getattribute in Hkey. destruct (String.eqb key "__name__"); [done|].
      destruct (dict_get key (cls_attrs cls)); congruence. }
    induction depth as [|depth IH]; [done|].
    simpl. unfold getattr at 1. rewrite Hkey, IH. by destruct depth.
Qed.

(** ** Records: writing and reading *)

Lemma table_of_class (m : Model) (t : Table) :
  dict_get "__table__" (cls_attrs (model_class m)) = Some (VTable t) ->
  __dict__ m !! "__table__" = None ->
  _Model.table_of m = Ok t.
Proof. intros Hcls Hm. unfold _Model.table_of, _Model.lookup_table. by rewrite Hm, Hcls. Qed.

(** A write that raises nothing. *)
Lemma setattr_ok_inv self key v is_loader self' :
  _Model.__setattr__ self key v is_loader = Ok self' ->
  self' = {| model_class := model_class self; __dict__ := <[key := v]> (__dict__ self) |}
  /\ exists t, _Model.table_of self = Ok t
          /\ (is_loader = false -> dict_in key (_Model.fields_dict t) = true)
          /\ (pk_auto (table_pk t) = true ->
              exists f, pk_field (table_pk t) = Some f /\ key <> name f).
Proof.
  unfold _Model.__setattr__. destruct (_Model.table_of self) as [t|e]; [|discriminate].
  rewrite result_bind_ok. intros Hset.
  assert (exists u, (if pk_auto (table_pk t)
                then f ← _Model.pk_field_of t;
                     if String.eqb key (name f)
                     then Raise (ModifyAutoPkError
                                   "AUTO_INCREMENT table not allowed modify primary key")
                     else Ok tt
                else Ok tt) = Ok u
          /\ (pk_auto (table_pk t) = true ->
              exists f, pk_field (table_pk t) = Some f /\ key <> name f)) as ([] & Hguard & Hpk).
  { destruct (pk_auto (table_pk t)); [|by exists tt].
    unfold _Model.pk_field_of in *. destruct (pk_field (table_pk t)) as [f|]; [|discriminate].
    rewrite result_bind_ok in *. destruct (String.eqb_spec key (name f)); [discriminate|].
    exists tt. split; [done|]. intros _. by exists f. }
  rewrite Hguard, result_bind_ok in Hset.
  destruct (negb is_loader && negb (dict_in key (_Model.fields_dict t)))%bool eqn:Hdecl;
    [discriminate|].
  injection Hset as <-. split; [done|]. exists t. split; [done|]. split; [|done].
  intros ->. simpl in Hdecl. by apply negb_false_iff in Hdecl.
Qed.

Lemma setattr_ok self t key v is_loader :
  _Model.table_of self = Ok t ->
  (is_loader = true \/ dict_in key (_Model.fields_dict t) = true) ->
  (pk_auto (table_pk t) = false
   \/ exists f, pk_field (table_pk t) = Some f /\ key <> name f) ->
  _Model.__setattr__ self key v is_loader
  = Ok {| model_class := model_class self; __dict__ := <[key := v]> (__dict__ self) |}.
Proof.
  intros Ht Hdecl Hpk. unfold _Model.__setattr__. rewrite Ht, result_bind_ok.
  assert ((if pk_auto (table_pk t)
           then f ← _Model.pk_field_of t;
                if String.eqb key (name f)
                then Raise (ModifyAutoPkError
                              "AUTO_INCREMENT table not allowed modify primary key")
                else Ok tt
           else Ok tt) = Ok tt) as ->.
  { destruct Hpk as [-> | (f & Hf & Hne)]; [done|].
    destruct (pk_auto (table_pk t)); [|done].
    unfold _Model.pk_field_of. rewrite Hf, result_bind_ok.
    by destruct (String.eqb_spec key (name f)). }
  rewrite result_bind_ok. destruct Hdecl as [-> | ->]; [done|]. by rewrite andb_false_r.
Qed.

(** X9.  After a write that raises nothing, reading the key gives the
    value written, the record is of the same class, and, unless the key
    is [__table__], every other key reads as before. *)
Theorem setattr_then_getattr (self : Model) (key : string) (v : value) (is_loader : bool)
    (self' : Model) :
  _Model.__setattr__ self key v is_loader = Ok self' ->
  _Model.__getattr__ self' key = Ok v
  /\ model_class self' = model_class self
  /\ (key <> "__table__" ->
      forall k, k <> key -> _Model.__getattr__ self' k = _Model.__getattr__ self k).
Proof.
  intros [-> _]%setattr_ok_inv. split; [|split; [done|]].
  - unfold _Model.__getattr__. simpl. by rewrite lookup_insert_eq.
  - intros Hkey k Hk. unfold _Model.__getattr__, _Model.table_of, _Model.lookup_table.
    simpl. by rewrite !lookup_insert_ne.
Qed.

Lemma setattr_then_getattr_witness :
  _Model.__getattr__ {| model_class := Account; __dict__ := {["name" := VStr "Alice"]} |} "name"
  = Ok (VStr "Alice")
  /\ model_class {| model_class := Account; __dict__ := {["name" := VStr "Alice"]} |}
     = model_class {| model_class := Account; __dict__ := ∅ |}
  /\ ("name" <> "__table__" ->
      forall k, k <> "name" ->
        _Model.__getattr__ {| model_class := Account; __dict__ := {["name" := VStr "Alice"]} |} k
        = _Model.__getattr__ {| model_class := Account; __dict__ := ∅ |} k).
Proof.
  exact (setattr_then_getattr {| model_class := Account; __dict__ := ∅ |} "name"
           (VStr "Alice") false
           {| model_class := Account; __dict__ := {["name" := VStr "Alice"]} |} eq_refl).
Defined.

(** ** Records: the constructor *)

Lemma list_to_map_snoc_union (k : string) (v : value) (l : pydict) (d : gmap string value) :
  k ∉ l.*1 ->
  (list_to_map l : gmap string value) ∪ <[k := v]> d = list_to_map ((k, v) :: l) ∪ d.
Proof.
  intros Hk. simpl. rewrite <- insert_union_l.
  symmetry. apply insert_union_r. by apply not_elem_of_list_to_map_1.
Qed.

(** The loop of the constructor, from a record of the class that does not
    shadow [__table__]. *)
Lemma init_loop_inv (cls : ModelClass) (t : Table) kwargs : forall m0 m,
  dict_get "__table__" (cls_attrs cls) = Some (VTable t) ->
  dict_in "__table__" (_Model.fields_dict t) = false ->
  model_class m0 = cls ->
  __dict__ m0 !! "__table__" = None ->
  NoDup kwargs.*1 ->
  _Model.init_loop kwargs m0 = Ok m ->
  m = {| model_class := cls; __dict__ := list_to_map kwargs ∪ __dict__ m0 |}
  /\ __dict__ m !! "__table__" = None
  /\ Forall (fun k => dict_in k (_Model.fields_dict t) = true
                      /\ (pk_auto (table_pk t) = true ->
                          exists f, pk_field (table_pk t) = Some f /\ k <> name f))
            kwargs.*1.
Proof.
  induction kwargs as [|[k v] kwargs IH]; intros m0 m Hcls Hfield Hm0 Hshadow Hnd.
  - intros [= <-]. simpl. rewrite (left_id_L ∅ (∪)). destruct m0; simpl in *. by subst.
  - simpl. destruct (_Model.__setattr__ m0 k v false) as [m1|e] eqn:Hset; [|discriminate].
    rewrite result_bind_ok. intros Hloop.
    apply setattr_ok_inv in Hset as (-> & t' & Ht' & Hdecl & Hpk).
    rewrite (table_of_class m0 t) in Ht' by (by rewrite ?Hm0). injection Ht' as <-.
    specialize (Hdecl eq_refl).
    assert (k <> "__table__") as Hk by (intros ->; congruence).
    simpl in Hnd. apply NoDup_cons in Hnd as [Hfresh Hnd].
    apply IH in Hloop as (-> & Hshadow' & Hall); simpl; try done.
    + rewrite list_to_map_snoc_union by done. split; [done|]. split.
      * simpl in *. rewrite list_to_map_snoc_union in Hshadow' by done. exact Hshadow'.
      * constructor; [done|exact Hall].
    + by rewrite lookup_insert_ne.
Qed.

Lemma init_loop_ok (cls : ModelClass) (t : Table) kwargs : forall m0,
  dict_get "__table__" (cls_attrs cls) = Some (VTable t) ->
  model_class m0 = cls ->
  __dict__ m0 !! "__table__" = None ->
  NoDup kwargs.*1 ->
  Forall (fun k => dict_in k (_Model.fields_dict t) = true
                   /\ k <> "__table__"
                   /\ (pk_auto (table_pk t) = false
                       \/ exists f, pk_field (table_pk t) = Some f /\ k <> name f))
         kwargs.*1 ->
  _Model.init_loop kwargs m0
  = Ok {| model_class := cls; __dict__ := list_to_map kwargs ∪ __dict__ m0 |}.
Proof.
  induction kwargs as [|[k v] kwargs IH]; intros m0 Hcls Hm0 Hshadow Hnd Hall.
  - simpl. rewrite (left_id_L ∅ (∪)). destruct m0; simpl in *. by subst.
  - simpl in *. apply Forall_cons in Hall as [(Hdecl & Hk & Hpk) Hall].
    apply NoDup_cons in Hnd as [Hfresh Hnd].
    rewrite (setattr_ok m0 t k v false); [|by apply table_of_class; rewrite ?Hm0|by right|done].
    rewrite result_bind_ok, IH; simpl; try done.
    + by rewrite list_to_map_snoc_union.
    + by rewrite lookup_insert_ne.
Qed.

(** X10.  The constructor sets every keyword argument when each is keyed
    by a declared field other than [__table__] and, on an AUTO_INCREMENT
    table, none is keyed by the primary key's name: the record holds
    exactly the keyword arguments. *)
Theorem init_sets_fields (cls : ModelClass) (t : Table) (kwargs : pydict) :
  dict_get "__table__" (cls_attrs cls) = Some (VTable t) ->
  NoDup kwargs.*1 ->
  Forall (fun k => dict_in k (_Model.fields_dict t) = true
                   /\ k <> "__table__"
                   /\ (pk_auto (table_pk t) = false
                       \/ exists f, pk_field (table_pk t) = Some f /\ k <> name f))
         kwargs.*1 ->
  _Model.__init__ cls kwargs = Ok {| model_class := cls; __dict__ := list_to_map kwargs |}.
Proof.
  intros Hcls Hnd Hall. unfold _Model.__init__.
  rewrite (init_loop_ok cls t kwargs); try done. simpl. by rewrite (right_id_L ∅ (∪)).
Qed.

Lemma init_sets_fields_witness :
  _Model.__init__ Account [("id", VInt 1); ("name", VStr "Alice")]
  = Ok {| model_class := Account;
          __dict__ := list_to_map [("id", VInt 1); ("name", VStr "Alice")] |}.
Proof.
  apply (init_sets_fields Account account_table); [reflexivity|compute_done|].
  repeat (constructor; [split; [reflexivity|split; [discriminate|by left]]|]). constructor.
Defined.

(** X11.  A record that the constructor returns holds declared fields
    only, and exactly the keyword arguments; on an AUTO_INCREMENT table
    none of them is the primary key. *)
Theorem init_only_declared (cls : ModelClass) (t : Table) (kwargs : pydict) (m : Model) :
  dict_get "__table__" (cls_attrs cls) = Some (VTable t) ->
  dict_in "__table__" (_Model.fields_dict t) = false ->
  NoDup kwargs.*1 ->
  _Model.__init__ cls kwargs = Ok m ->
  m = {| model_class := cls; __dict__ := list_to_map kwargs |}
  /\ Forall (fun k => dict_in k (_Model.fields_dict t) = true
                      /\ (pk_auto (table_pk t) = true ->
                          exists f, pk_field (table_pk t) = Some f /\ k <> name f))
            kwargs.*1.
Proof.
  intros Hcls Hfield Hnd Hinit. unfold _Model.__init__ in Hinit.
  apply (init_loop_inv cls t) in Hinit as (-> & _ & Hall); try done.
  simpl. by rewrite (right_id_L ∅ (∪)).
Qed.

Lemma init_only_declared_witness :
  ({| model_class := Account; __dict__ := {["name" := VStr "Alice"]} |} : Model)
  = {| model_class := Account; __dict__ := list_to_map [("name", VStr "Alice")] |}
  /\ Forall (fun k => dict_in k (_Model.fields_dict account_table) = true
                      /\ (pk_auto (table_pk account_table) = true ->
                          exists f, pk_field (table_pk account_table) = Some f /\ k <> name f))
            [("name", VStr "Alice")].*1.
Proof.
  apply (init_only_declared Account account_table [("name", VStr "Alice")]);
    [reflexivity|reflexivity|compute_done|reflexivity].
Defined.

(** X12.  On an AUTO_INCREMENT table a record built by the constructor has
    no primary-key value, so [_remove] raises RuntimeError for it without
    running a Delete. *)
Theorem init_then_remove_auto
    (Delete_where_do : string -> Field -> value -> result ExecResults)
    (cls : ModelClass) (t : Table) (f : Field) (kwargs : pydict) (m : Model) :
  dict_get "__table__" (cls_attrs cls) = Some (VTable t) ->
  dict_in "__table__" (_Model.fields_dict t) = false ->
  pk_auto (table_pk t) = true ->
  pk_field (table_pk t) = Some f ->
  NoDup kwargs.*1 ->
  _Model.__init__ cls kwargs = Ok m ->
  __dict__ m !! name f = None
  /\ _Model._remove Delete_where_do m = Raise RuntimeError.
Proof.
  intros Hcls Hfield Hauto Hf Hnd Hinit. unfold _Model.__init__ in Hinit.
  apply (init_loop_inv cls t) in Hinit as (-> & Hshadow & Hall); try done.
  simpl in *. rewrite (right_id_L ∅ (∪)) in *.
  assert ((list_to_map kwargs : gmap string value) !! name f = None) as Hunset.
  { apply not_elem_of_list_to_map_1. intros Hin.
    rewrite Forall_forall in Hall. destruct (Hall _ Hin) as [_ Hne].
    destruct (Hne Hauto) as (f' & Hf' & Hne'). congruence. }
  split; [done|].
  assert (_Model.table_of {| model_class := cls; __dict__ := list_to_map kwargs |} = Ok t)
    as Ht by (by apply table_of_class).
  unfold _Model._remove. rewrite Ht, result_bind_ok.
  unfold _Model.pk_field_of. rewrite Hf, result_bind_ok.
  rewrite (getattr_pk _ t f Ht Hf), result_bind_ok. simpl. by rewrite Hunset.
Qed.

Lemma init_then_remove_auto_witness :
  _Model.__init__ Person [("name", VStr "Alice")]
  = Ok {| model_class := Person; __dict__ := {["name" := VStr "Alice"]} |}
  /\ __dict__ {| model_class := Person; __dict__ := {["name" := VStr "Alice"]} |}
       !! name id_field = None
  /\ _Model._remove delete_1 {| model_class := Person; __dict__ := {["name" := VStr "Alice"]} |}
     = Raise RuntimeError.
Proof.
  split; [reflexivity|].
  apply (init_then_remove_auto delete_1 Person person_table id_field [("name", VStr "Alice")]);
    [reflexivity|reflexivity|reflexivity|reflexivity|compute_done|reflexivity].
Defined.

(** ** Records: the snapshot *)

Lemma snapshot_of_cons self f fs :
  snapshot_of self (f :: fs)
  = match effective self f with VNone => [] | v => [(name f, v)] end ++ snapshot_of self fs.
Proof. unfold snapshot_of. simpl. by destruct (effective self f). Qed.

Lemma snapshot_of_keys self fs k : k ∈ (snapshot_of self fs).*1 -> k ∈ name <$> fs.
Proof.
  induction fs as [|f fs IH]; [done|]. rewrite snapshot_of_cons, fmap_app, elem_of_app.
  simpl. rewrite elem_of_cons. intros [Hk|Hk]; [left|right; by apply IH].
  destruct (effective self f); simpl in Hk; try (by apply elem_of_nil in Hk);
    by apply list_elem_of_singleton in Hk.
Qed.

Lemma snapshot_of_no_none self fs : Forall (fun kv => kv.2 <> VNone) (snapshot_of self fs).
Proof.
  induction fs as [|f fs IH]; [constructor|]. rewrite snapshot_of_cons.
  apply Forall_app. split; [|done].
  destruct (effective self f); by repeat constructor.
Qed.

(** The loop of [__self__] over fields that are keyed by their names. *)
Lemma self_loop_eq (self : Model) (t : Table) (pkf : Field) fs : forall values,
  _Model.table_of self = Ok t ->
  pk_field (table_pk t) = Some pkf ->
  Forall (fun f => dict_in (name f) (_Model.fields_dict t) = true) fs ->
  NoDup (name <$> fs) ->
  (forall k, k ∈ name <$> fs -> k ∉ values.*1) ->
  _Model.self_loop self fs values = Ok (values ++ snapshot_of self fs).
Proof.
  induction fs as [|f fs IH]; intros values Ht Hpk Hdecl Hnd Hfresh.
  - simpl. by rewrite app_nil_r.
  - rewrite snapshot_of_cons. simpl (_Model.self_loop _ _ _). simpl in Hnd, Hfresh.
    apply Forall_cons in Hdecl as [Hf Hdecl]. apply NoDup_cons in Hnd as [Hnew Hnd].
    assert (_Model.__getattr__ self (name f) = Ok (default VNone (__dict__ self !! name f)))
      as ->.
    { unfold _Model.__getattr__. destruct (__dict__ self !! name f); [done|].
      rewrite Ht, result_bind_ok. unfold _Model.pk_field_of. rewrite Hpk, result_bind_ok.
      by rewrite Hf, orb_true_r. }
    rewrite result_bind_ok.
    assert (match default VNone (__dict__ self !! name f), call f with
            | VNone, Some d => d
            | _, _ => default VNone (__dict__ self !! name f)
            end = effective self f) as ->.
    { unfold effective. destruct (__dict__ self !! name f) as [v|]; simpl.
      - destruct v; try done; by destruct (call f).
      - by destruct (call f). }
    assert (name f ∉ values.*1) as Hfresh1 by (apply Hfresh; by left).
    destruct (effective self f) eqn:Heff;
      try (rewrite (dict_set_fresh _ _ _ Hfresh1), IH, <- app_assoc; try done;
           intros k Hk; rewrite fmap_app, elem_of_app; simpl;
           rewrite list_elem_of_singleton; intros [Hin| ->];
           [by apply (Hfresh k); [right|]|done]).
    rewrite IH; try done. intros k Hk. apply Hfresh. by right.
Qed.

(** X13.  For a record of a table whose fields are keyed by their names,
    all distinct, [__self__] gives the formatter the dictionary that
    holds, in declaration order, each field's own value or else the
    value that calling the field gives, leaving out the fields for
    which that is None: the snapshot never holds None. *)
Theorem self_snapshot (tdictformatter : value -> value) (self : Model) (t : Table)
    (pkf : Field) :
  _Model.table_of self = Ok t ->
  pk_field (table_pk t) = Some pkf ->
  Forall (fun f => dict_in (name f) (_Model.fields_dict t) = true) (_Model.fields t) ->
  NoDup (name <$> _Model.fields t) ->
  _Model.__self__ tdictformatter self
  = Ok (tdictformatter (VDict (snapshot_of self (_Model.fields t))))
  /\ Forall (fun kv => kv.2 <> VNone) (snapshot_of self (_Model.fields t)).
Proof.
  intros Ht Hpk Hdecl Hnd. split; [|apply snapshot_of_no_none].
  unfold _Model.__self__. rewrite Ht, result_bind_ok.
  rewrite (self_loop_eq self t pkf); try done. by intros k _ ?%elem_of_nil.
Qed.

Lemma self_snapshot_witness :
  _Model.__self__ (fun v => v)
    {| model_class := Account; __dict__ := {["name" := VStr "Alice"]} |}
  = Ok (VDict (snapshot_of {| model_class := Account; __dict__ := {["name" := VStr "Alice"]} |}
                 (_Model.fields account_table)))
  /\ Forall (fun kv => kv.2 <> VNone)
       (snapshot_of {| model_class := Account; __dict__ := {["name" := VStr "Alice"]} |}
          (_Model.fields account_table)).
Proof.
  apply (self_snapshot (fun v => v)
           {| model_class := Account; __dict__ := {["name" := VStr "Alice"]} |}
           account_table key_field); [reflexivity|reflexivity| |compute_done].
  repeat (constructor; [reflexivity|]). constructor.
Defined.

(** The snapshot of that record holds its name only. *)
Example snapshot_account :
  snapshot_of {| model_class := Account; __dict__ := {["name" := VStr "Alice"]} |}
    (_Model.fields account_table)
  = [("name", VStr "Alice")].
Proof. reflexivity. Qed.

(** ** The result codec: rows *)

(** The call of line 329 on a record of a class that has nothing called
    [set_value]. *)
Lemma set_value_raises (self : Model) (t : Table) (f : Field) key v is_loader :
  _Model.table_of self = Ok t ->
  pk_field (table_pk t) = Some f ->
  __dict__ self !! "set_value" = None ->
  dict_get "set_value" (cls_attrs (model_class self)) = None ->
  name f <> "set_value" ->
  dict_in "set_value" (_Model.fields_dict t) = false ->
  set_value self key v is_loader = Raise AttributeError.
Proof.
  intros Ht Hf Hself Hcls Hname Hfield.
  unfold set_value, _Model.getattribute. rewrite Hself, Hcls.
  unfold _Model.__getattr__. rewrite Hself, Ht, result_bind_ok.
  unfold _Model.pk_field_of. rewrite Hf, result_bind_ok, Hfield.
  apply not_eq_sym, String.eqb_neq in Hname. by rewrite Hname.
Qed.

(** A row with a first column stops the inner [_do] at that column. *)
Lemma do_raises (cls : ModelClass) (t : Table) (f : Field) (k : string) (v : value)
    (row : pydict) :
  dict_get "__table__" (cls_attrs cls) = Some (VTable t) ->
  pk_field (table_pk t) = Some f ->
  dict_get "set_value" (cls_attrs cls) = None ->
  name f <> "set_value" ->
  dict_in "set_value" (_Model.fields_dict t) = false ->
  _do (VDict ((k, v) :: row)) cls = Raise AttributeError.
Proof.
  intros Hcls Hf Hset Hname Hfield. unfold _do, _Model.__init__.
  simpl (_Model.init_loop _ _). rewrite result_bind_ok.
  simpl (items _). rewrite result_bind_ok. simpl (do_loop _ _).
  by rewrite (set_value_raises _ t f); [|apply table_of_class|..].
Qed.

(** X14.  Loading rows into records fails at the first column: for a
    class with a Table whose namespace and fields have nothing called
    [set_value], loading a row that has a column raises AttributeError
    (line 329 calls a method that is not defined), and so does loading a
    list of rows that starts with such a row; no record is built from a
    row that has a column. *)
Theorem load_row_raises (formattdict : value -> value) (cls : ModelClass) (t : Table)
    (f : Field) (k : string) (v : value) (row : pydict) :
  dict_get "__table__" (cls_attrs cls) = Some (VTable t) ->
  pk_field (table_pk t) = Some f ->
  dict_get "set_value" (cls_attrs cls) = None ->
  name f <> "set_value" ->
  dict_in "set_value" (_Model.fields_dict t) = false ->
  load formattdict (VDict ((k, v) :: row)) cls false = Raise AttributeError
  /\ forall rows,
       load formattdict (VList (VDict ((k, v) :: row) :: rows)) cls false
       = Raise AttributeError.
Proof.
  intros Hcls Hf Hset Hname Hfield.
  pose proof (do_raises cls t f k v row Hcls Hf Hset Hname Hfield) as Hdo.
  split.
  - unfold load, _load_to_model. simpl truthy. simpl negb. cbv iota.
    simpl (isinstance _). rewrite result_bind_ok. cbv iota. by rewrite Hdo.
  - intros rows. unfold load, _load_to_model. simpl truthy. simpl negb. cbv iota.
    simpl (isinstance _). rewrite !result_bind_ok. cbv iota.
    simpl (iter_value _). rewrite result_bind_ok. simpl (traverse _ _). by rewrite Hdo.
Qed.

Lemma load_row_raises_witness :
  load (fun v => v) (VDict [("id", VInt 3); ("age", VInt 30)]) Account false
  = Raise AttributeError
  /\ forall rows,
       load (fun v => v) (VList (VDict [("id", VInt 3); ("age", VInt 30)] :: rows)) Account false
       = Raise AttributeError.
Proof.
  apply (load_row_raises (fun v => v) Account account_table key_field
           "id" (VInt 3) [("age", VInt 30)]);
    [reflexivity|reflexivity|reflexivity|discriminate|reflexivity].
Defined.

(** ** The result codec: lists of rows *)




(** X17.  The shape check of [load]: for a raw result that is neither a
    dict nor a list nor a tuple, loading into records raises ValueError,
    while with [use_tdict] a true result is handed to [formattdict]
    unchecked and only a false one raises ValueError. *)
Theorem load_shape (formattdict : value -> value) (cls : ModelClass) (results : value) :
  instance_of results dict = false ->
  instance_of results list_ = false ->
  instance_of results tuple = false ->
  load formattdict results cls false = Raise ValueError
  /\ load formattdict results cls true
     = if truthy results then Ok (LValue (formattdict results)) else Raise ValueError.
Proof.
  intros Hd Hl Ht.
  destruct results; try discriminate;
    unfold load, _empty, _load_to_model; simpl; split; repeat case_match; done.
Qed.

Lemma load_shape_witness :
  load (fun v => v) (VInt 5) Account false = Raise ValueError
  /\ load (fun v => v) (VInt 5) Account true
     = if truthy (VInt 5) then Ok (LValue (VInt 5)) else Raise ValueError.
Proof.
  apply (load_shape (fun v => v) Account (VInt 5)); reflexivity.
Defined.

Lemma init_loop_app A R m0 :
  _Model.init_loop (A ++ R) m0 = _Model.init_loop A m0 ≫= _Model.init_loop R.
Proof.
  revert m0. induction A as [|[k v] A IH]; intros m0; [done|].
  simpl. destruct (_Model.__setattr__ m0 k v false) as [m1|e]; [|done].
  rewrite !result_bind_ok. apply IH.
Qed.

(** X18.  The constructor rejects the first keyword argument that is not
    keyed by a declared field: when the arguments before it are set, and
    it is not the primary key of an AUTO_INCREMENT table, the constructor
    raises AttributeError. *)
Theorem init_rejects_undeclared (cls : ModelClass) (t : Table) (A : pydict) (k : string)
    (v : value) (C : pydict) :
  dict_get "__table__" (cls_attrs cls) = Some (VTable t) ->
  NoDup A.*1 ->
  Forall (fun k => dict_in k (_Model.fields_dict t) = true
                   /\ k <> "__table__"
                   /\ (pk_auto (table_pk t) = false
                       \/ exists f, pk_field (table_pk t) = Some f /\ k <> name f))
         A.*1 ->
  dict_in k (_Model.fields_dict t) = false ->
  (pk_auto (table_pk t) = false
   \/ exists f, pk_field (table_pk t) = Some f /\ k <> name f) ->
  _Model.__init__ cls (A ++ (k, v) :: C) = Raise AttributeError.
Proof.
  intros Hcls Hnd Hall Hk Hpk. unfold _Model.__init__.
  rewrite init_loop_app, (init_loop_ok cls t A); try done.
  rewrite result_bind_ok. simpl.
  set (m := {| model_class := cls; __dict__ := _ |}).
  assert (_Model.table_of m = Ok t) as Ht.
  { apply table_of_class; [done|]. subst m. simpl. rewrite (right_id_L ∅ (∪)).
    apply not_elem_of_list_to_map_1. intros Hin.
    rewrite Forall_forall in Hall. by destruct (Hall _ Hin) as (_ & ? & _). }
  assert (_Model.__setattr__ m k v false = Raise AttributeError) as ->; [|done].
  unfold _Model.__setattr__. rewrite Ht, result_bind_ok.
  assert ((if pk_auto (table_pk t)
           then f ← _Model.pk_field_of t;
                if String.eqb k (name f)
                then Raise (ModifyAutoPkError
                              "AUTO_INCREMENT table not allowed modify primary key")
                else Ok tt
           else Ok tt) = Ok tt) as ->.
  { destruct Hpk as [-> | (f & Hf & Hne)]; [done|].
    destruct (pk_auto (table_pk t)); [|done].
    unfold _Model.pk_field_of. rewrite Hf, result_bind_ok.
    by destruct (String.eqb_spec k (name f)). }
  by rewrite result_bind_ok, Hk.
Qed.

Lemma init_rejects_undeclared_witness :
  _Model.__init__ Account ([("name", VStr "Alice")] ++ ("age", VInt 30) :: [("id", VInt 1)])
  = Raise AttributeError.
Proof.
  apply (init_rejects_undeclared Account account_table [("name", VStr "Alice")] "age"
           (VInt 30) [("id", VInt 1)]); [reflexivity|compute_done| |reflexivity|by left].
  repeat (constructor; [split; [reflexivity|split; [discriminate|by left]]|]). constructor.
Defined.

(** X19.  A record that the constructor built with a true value for the
    primary key is removed by the Delete on the table's name filtered by
    the primary-key field being equal to that value. *)
Theorem init_then_remove
    (Delete_where_do : string -> Field -> value -> result ExecResults)
    (cls : ModelClass) (t : Table) (f : Field) (kwargs : pydict) (v : value) (m : Model) :
  dict_get "__table__" (cls_attrs cls) = Some (VTable t) ->
  dict_in "__table__" (_Model.fields_dict t) = false ->
  pk_field (table_pk t) = Some f ->
  NoDup kwargs.*1 ->
  (name f, v) ∈ kwargs ->
  truthy v = true ->
  _Model.__init__ cls kwargs = Ok m ->
  _Model._remove Delete_where_do m = Delete_where_do (table_name t) f v.
Proof.
  intros Hcls Hfield Hf Hnd Hin Hv Hinit. unfold _Model.__init__ in Hinit.
  apply (init_loop_inv cls t) in Hinit as (-> & Hshadow & _); try done.
  simpl in *. rewrite (right_id_L ∅ (∪)) in *.
  assert (_Model.table_of {| model_class := cls; __dict__ := list_to_map kwargs |} = Ok t)
    as Ht by (by apply table_of_class).
  unfold _Model._remove. rewrite Ht, result_bind_ok.
  unfold _Model.pk_field_of. rewrite Hf, !result_bind_ok.
  rewrite (getattr_pk _ t f Ht Hf), result_bind_ok. simpl.
  rewrite (elem_of_list_to_map_1 _ _ _ Hnd Hin). simpl. rewrite Hv. simpl. by rewrite Hf.
Qed.

Lemma init_then_remove_witness :
  _Model.__init__ Account [("id", VInt 3); ("name", VStr "Alice")]
  = Ok {| model_class := Account;
          __dict__ := list_to_map [("id", VInt 3); ("name", VStr "Alice")] |}
  /\ _Model._remove delete_1
       {| model_class := Account;
          __dict__ := list_to_map [("id", VInt 3); ("name", VStr "Alice")] |}
     = delete_1 (table_name account_table) key_field (VInt 3).
Proof.
  split; [reflexivity|].
  apply (init_then_remove delete_1 Account account_table key_field
           [("id", VInt 3); ("name", VStr "Alice")] (VInt 3));
    [reflexivity|reflexivity|reflexivity|compute_done|constructor|reflexivity|reflexivity].
Defined.
